(** * eFlow: the HDF5 analyzer facade and its command-line front-end

    A shallow embedding of

    - the "Rust HDF5 Analyzer Commands" of [src/lib/utils.ts]
      ([analyzeHdf5Info], [analyzeHdf5Structure], [listHdf5Datasets],
      [extractHecRasData], [readHdf5DatasetSample], [getFileStats]), and
    - [main] of [src-tauri/hdf5_analyzer.rs.bak],

    followed by the properties the specification states about them.

    Conventions.  A JavaScript [number] that only ever holds an integer
    (counts, indices, epoch milliseconds) is a [Z]; the sample values, which
    are decimal literals that the code copies and never computes with, are
    rationals ([Q]).  An [async] function is modelled by how its promise
    settles together with the lines it wrote to the console.  The wall clock
    read by [new Date()] is an explicit argument. *)

From Stdlib Require Import ZArith QArith String Ascii List Bool Lia DecimalString.
From Stdlib Require Decimal DecimalPos DecimalN.
Import ListNotations.

Local Open Scope string_scope.
Local Open Scope Z_scope.
Local Set Warnings "-register-all".

(* ================================================================= *)
(** ** The JavaScript built-ins the facade uses *)

Module Js.

(** Values a [throw] can carry in the modelled code. *)
Inductive JsError : Type :=
| Error (message : string)
| RangeError (message : string).

Definition show_error (e : JsError) : string :=
  match e with
  | Error m => "Error: " ++ m
  | RangeError m => "RangeError: " ++ m
  end.

(** How a promise settles. *)
Inductive Settled (A : Type) : Type :=
| Resolved (v : A)
| Rejected (e : JsError).
Arguments Resolved {A} v.
Arguments Rejected {A} e.

Definition bind {A B : Type} (p : Settled A) (k : A -> Settled B) : Settled B :=
  match p with
  | Resolved v => k v
  | Rejected e => Rejected e
  end.

(** The outcome of calling an [async] function: console output and the
    settled promise. *)
Record Async (A : Type) : Type := mkAsync
  { console : list string;
    settled : Settled A }.
Arguments mkAsync {A} console settled.
Arguments console {A} a.
Arguments settled {A} a.

(** [try { body } catch (error) { console.error(label, error); throw error; }] *)
Definition try_log_rethrow {A : Type} (label : string) (body : Settled A) : Async A :=
  match body with
  | Resolved v => mkAsync [] (Resolved v)
  | Rejected e => mkAsync [label ++ " " ++ show_error e] (Rejected e)
  end.

(** *** Strings *)

(** [s.split(sep)] for a one-character separator. *)
Fixpoint split (sep : ascii) (s : string) : list string :=
  match s with
  | EmptyString => [EmptyString]
  | String c rest =>
      if Ascii.eqb c sep then EmptyString :: split sep rest
      else match split sep rest with
           | seg :: segs => String c seg :: segs
           | [] => [String c EmptyString]
           end
  end.

Definition backslash : ascii := "092".

(** [a.pop()]: the last element, [undefined] ([None]) on an empty array. *)
Fixpoint pop (a : list string) : option string :=
  match a with
  | [] => None
  | [x] => Some x
  | _ :: tl => pop tl
  end.

(** Truthiness of a [string | undefined]. *)
Definition truthy (v : option string) : bool :=
  match v with
  | Some (String _ _) => true
  | _ => false
  end.

(** [v || w] *)
Definition or_else (v w : option string) : option string :=
  if truthy v then v else w.

(** [v || "literal"] *)
Definition or_literal (v : option string) (lit : string) : string :=
  match v with
  | Some (String c s) => String c s
  | _ => lit
  end.

(** *** Arrays *)

(** [a.slice(0, end)] for an integral [end]: a negative [end] counts from
    the back of the array. *)
Definition slice0 {A : Type} (a : list A) (end_ : Z) : list A :=
  let len := Z.of_nat (List.length a) in
  let final := if end_ <? 0 then Z.max (len + end_) 0 else Z.min end_ len in
  firstn (Z.to_nat final) a.

(** *** Dates *)

(** A time value is a number of milliseconds since the epoch; [None] is the
    invalid date. *)
Definition Date : Type := option Z.

Definition maxTimeValue : Z := 8640000000000000.

Definition valid_time (t : Z) : Prop := - maxTimeValue <= t <= maxTimeValue.

(** TimeClip *)
Definition timeClip (t : Z) : Date :=
  if (- maxTimeValue <=? t) && (t <=? maxTimeValue) then Some t else None.

(** [new Date()] when the clock reads [now]. *)
Definition newDate (now : Z) : Date := timeClip now.

Definition msPerDay : Z := 86400000.

(** A 400-year era has 146097 days and starts on a 1st of March.  For the
    [doe]-th day of an era: the year within the era (counted from January,
    so 0..400), the month (1..12) and the day of the month. *)
Definition civil_of_doe (doe : Z) : Z * Z * Z :=
  let yoe := (doe - doe / 1460 + doe / 36524 - doe / 146096) / 365 in
  let doy := doe - (365 * yoe + yoe / 4 - yoe / 100) in
  let mp := (5 * doy + 2) / 153 in
  let d := doy - (153 * mp + 2) / 5 + 1 in
  let m := if mp <? 10 then mp + 3 else mp - 9 in
  (yoe + (if m <=? 2 then 1 else 0), m, d).

(** Year, month and day of month of a day number (days since 1970-01-01)
    in the proleptic Gregorian calendar. *)
Definition civil_from_days (day : Z) : Z * Z * Z :=
  let z := day + 719468 in
  let '(y, m, d) := civil_of_doe (z mod 146097) in
  (y + 400 * (z / 146097), m, d).

(** The day of the era of a date given by its March-based year of the era. *)
Definition doe_of_civil (yoe m d : Z) : Z :=
  let mp := if 2 <? m then m - 3 else m + 9 in
  let doy := (153 * mp + 2) / 5 + d - 1 in
  yoe * 365 + yoe / 4 - yoe / 100 + doy.

(** The day number of a date. *)
Definition days_from_civil (ymd : Z * Z * Z) : Z :=
  let '(y, m, d) := ymd in
  let y' := y - (if m <=? 2 then 1 else 0) in
  (y' / 400) * 146097 + doe_of_civil (y' mod 400) m d - 719468.

Definition digit (d : Z) : ascii := ascii_of_N (48 + Z.to_N d).

(** The [width] low decimal digits of [n], most significant first. *)
Fixpoint pad (width : nat) (n : Z) : string :=
  match width with
  | O => EmptyString
  | S w => pad w (n / 10) ++ String (digit (n mod 10)) EmptyString
  end.

(** Years 0..9999 print with four digits, the others with a sign and six. *)
Definition iso_year (y : Z) : string :=
  if (0 <=? y) && (y <=? 9999) then pad 4 y
  else (if y <? 0 then "-" else "+") ++ pad 6 (Z.abs y).

Definition iso_of_time (t : Z) : string :=
  let '(y, m, d) := civil_from_days (t / msPerDay) in
  let ms := t mod msPerDay in
  iso_year y ++ "-" ++ pad 2 m ++ "-" ++ pad 2 d ++ "T"
    ++ pad 2 (ms / 3600000) ++ ":" ++ pad 2 (ms / 60000 mod 60) ++ ":"
    ++ pad 2 (ms / 1000 mod 60) ++ "." ++ pad 3 (ms mod 1000) ++ "Z".

(** [d.toISOString()] throws a [RangeError] on the invalid date. *)
Definition toISOString (d : Date) : Settled string :=
  match d with
  | Some t => Resolved (iso_of_time t)
  | None => Rejected (RangeError "Invalid time value")
  end.

End Js.

(* ================================================================= *)
(** ** The response types of [src/lib/utils.ts] *)

Module RustFileInfo.
Record t : Type := mk
  { name : string;
    path : string;
    size_mb : Q;
    modified : string;
    accessible : bool;
    groups_count : Z;
    datasets_count : Z;
    error : option string }.
End RustFileInfo.

Module RustTreeNode.
Inductive t : Type := mk
  { name : string;
    path : string;
    node_type : string;   (* "group" or "dataset" *)
    children : list t;
    attributes : list (string * string);
    shape : option (list Z);
    dtype : option string }.
End RustTreeNode.

Module RustFileStructure.
Record t : Type := mk
  { file_path : string;
    root : RustTreeNode.t;
    total_groups : Z;
    total_datasets : Z;
    error : option string }.
End RustFileStructure.

Module RustHecRasData.
Record t : Type := mk
  { file : string;
    geometry_data : list (string * list Q);
    results_data : list (string * list Q);
    metadata : list (string * string);
    extraction_summary : list (string * Z) }.
End RustHecRasData.

(* ================================================================= *)
(** ** The facade operations *)

Module Facade.
Import Js.

Record FileStats : Type := mkFileStats { size : Z }.

(** [getFileStats]: the size is the constant 10 MB. *)
Definition getFileStats (filePath : string) : Settled FileStats :=
  Resolved (mkFileStats (1024 * 1024 * 10)).

(** [analyzeHdf5Info], called when the clock reads [now].  The quotient
    [stats.size / (1024 * 1024)] is kept in lowest terms. *)
Definition analyzeHdf5Info (now : Z) (filePath : string) : Async RustFileInfo.t :=
  try_log_rethrow "Error analyzing HDF5 file info:"
    (bind (getFileStats filePath) (fun stats =>
     bind (toISOString (newDate now)) (fun iso =>
     Resolved
       {| RustFileInfo.name :=
            or_literal
              (or_else (pop (split "/" filePath)) (pop (split backslash filePath)))
              "unknown";
          RustFileInfo.path := filePath;
          RustFileInfo.size_mb := Qred (inject_Z (size stats) / inject_Z (1024 * 1024));
          RustFileInfo.modified := iso;
          RustFileInfo.accessible := true;
          RustFileInfo.groups_count := 5;
          RustFileInfo.datasets_count := 15;
          RustFileInfo.error := None |}))).

Definition mock_group (name path : string) (children : list RustTreeNode.t)
  : RustTreeNode.t :=
  {| RustTreeNode.name := name;
     RustTreeNode.path := path;
     RustTreeNode.node_type := "group";
     RustTreeNode.children := children;
     RustTreeNode.attributes := [];
     RustTreeNode.shape := None;
     RustTreeNode.dtype := None |}.

(** [analyzeHdf5Structure] *)
Definition analyzeHdf5Structure (filePath : string) : Async RustFileStructure.t :=
  try_log_rethrow "Error analyzing HDF5 file structure:"
    (Resolved
       {| RustFileStructure.file_path := filePath;
          RustFileStructure.root :=
            mock_group "root" "/"
              [ mock_group "Geometry" "/Geometry" [];
                mock_group "Results" "/Results" [] ];
          RustFileStructure.total_groups := 5;
          RustFileStructure.total_datasets := 15;
          RustFileStructure.error := None |}).

(** [listHdf5Datasets] *)
Definition listHdf5Datasets (filePath : string) : Async (list string) :=
  try_log_rethrow "Error listing HDF5 datasets:"
    (Resolved
       [ "/Geometry/2D Flow Areas/Area 2D/Cells Center Coordinate";
         "/Results/2D/MaxWSE";
         "/Results/2D/Velocity";
         "/Plan Data/Plan Information";
         "/Event Conditions/Unsteady" ]).

(** [extractHecRasData] *)
Definition extractHecRasData (filePath : string) : Async RustHecRasData.t :=
  try_log_rethrow "Error extracting HEC-RAS data:"
    (Resolved
       {| RustHecRasData.file := filePath;
          RustHecRasData.geometry_data :=
            [ ("/Geometry/2D Flow Areas/Area 2D/Cells Center Coordinate",
               [1.0; 2.0; 3.0; 4.0; 5.0]%Q) ];
          RustHecRasData.results_data :=
            [ ("/Results/2D/MaxWSE", [10.5; 11.2; 9.8; 12.1; 10.9]%Q) ];
          RustHecRasData.metadata :=
            [ ("File Type", "HEC-RAS Plan File"); ("Version", "6.3.1") ];
          RustHecRasData.extraction_summary :=
            [ ("geometry_datasets", 1); ("results_datasets", 1) ] |}).

Definition mockData : list Q :=
  [10.5; 11.2; 9.8; 12.1; 10.9; 11.5; 10.3; 12.8; 9.5; 11.8]%Q.

(** [readHdf5DatasetSample]; an omitted [maxElements] ([None]) is 10. *)
Definition readHdf5DatasetSample
    (filePath datasetPath : string) (maxElements : option Z) : Async (list Q) :=
  let maxElements := match maxElements with Some n => n | None => 10 end in
  try_log_rethrow "Error reading HDF5 dataset sample:"
    (Resolved (slice0 mockData maxElements)).

End Facade.

(* ================================================================= *)
(** ** The command-line front-end, [src-tauri/hdf5_analyzer.rs.bak] *)

Module Cli.

(** An [anyhow::Error]: its chain of context messages, outermost first. *)
Definition AnyhowError : Type := list string.

Inductive Result (A : Type) : Type :=
| Ok (v : A)
| Err (e : AnyhowError).
Arguments Ok {A} v.
Arguments Err {A} e.

(** [r.with_context(|| msg)] *)
Definition with_context {A : Type} (r : Result A) (msg : string) : Result A :=
  match r with
  | Ok v => Ok v
  | Err e => Err (msg :: e)
  end.

(** The library [eFlow_lib::hdf5_analyzer] is not part of the sources; the
    front-end is modelled over any implementation of the five associated
    functions of [HDF5Analyzer] it calls. *)
Record Analyzer : Type := mkAnalyzer
  { FileInfo : Type;
    FileStructure : Type;
    HecRasData : Type;
    f64 : Type;
    get_file_info : string -> Result FileInfo;
    get_file_structure : string -> Result FileStructure;
    list_datasets : string -> Result (list string);
    extract_hecras_data : string -> Result HecRasData;
    read_dataset_sample : string -> string -> N -> Result (list f64) }.

(** A call into the library. *)
Inductive Call : Type :=
| GetFileInfo (file_path : string)
| GetFileStructure (file_path : string)
| ListDatasets (file_path : string)
| ExtractHecrasData (file_path : string)
| ReadDatasetSample (file_path dataset_path : string) (max_elements : N).

(** What a run does, in order.  [Usage] stands for the text of
    [print_usage]; the lines that pretty-print a successful result are left
    out of the trace. *)
Inductive Event : Type :=
| Println (line : string)
| Eprintln (line : string)
| Usage
| Invoke (c : Call).

(** A computation of the front-end: its trace and its [Result]. *)
Definition Run (A : Type) : Type := list Event * Result A.

Definition ret {A : Type} (v : A) : Run A := ([], Ok v).

Definition emit (e : Event) : Run unit := ([e], Ok tt).

(** Sequencing; on [Err] the rest is skipped, as with [?]. *)
Definition bind {A B : Type} (m : Run A) (k : A -> Run B) : Run B :=
  match m with
  | (tr, Ok v) => let '(tr', r) := k v in ((tr ++ tr')%list, r)
  | (tr, Err e) => (tr, Err e)
  end.

Notation "x <- m ;; k" := (bind m (fun x => k))
  (at level 61, m at next level, right associativity).
Notation "m ;;; k" := (bind m (fun _ => k))
  (at level 61, right associativity).

(** A library call with its context message, followed by [?]. *)
Definition call {A : Type} (c : Call) (r : Result A) (ctx : string) : Run A :=
  ([Invoke c], with_context r ctx).

Definition print_usage : Run unit := emit Usage.

Definition rule : string :=
  "============================================================".

Definition show_N (n : N) : string := NilZero.string_of_uint (N.to_uint n).

Section FrontEnd.

(** The width of [usize] on the target. *)
Variable usize_bits : N.
Variable lib : Analyzer.

Definition usize_MAX : N := 2 ^ usize_bits - 1.

Definition digit_value (c : ascii) : option N :=
  let n := N_of_ascii c in
  if ((48 <=? n) && (n <=? 57))%N then Some (n - 48)%N else None.

Fixpoint parse_digits (acc : N) (s : string) : option N :=
  match s with
  | EmptyString => Some acc
  | String c rest =>
      match digit_value c with
      | None => None
      | Some d =>
          let acc' := (acc * 10 + d)%N in
          if (acc' <=? usize_MAX)%N then parse_digits acc' rest else None
      end
  end.

(** [s.parse::<usize>()]: decimal digits after an optional [+]; the empty
    string, a lone sign, any other character and overflow are errors. *)
Definition parse_usize (s : string) : option N :=
  match s with
  | EmptyString => None
  | String "+"%char EmptyString => None
  | String "-"%char EmptyString => None
  | String "+"%char rest => parse_digits 0 rest
  | _ => parse_digits 0 s
  end.

(** [o.unwrap_or(d)] *)
Definition unwrap_or (o : option N) (d : N) : N :=
  match o with
  | Some v => v
  | None => d
  end.

Definition analyze_file_info (file_path : string) : Run unit :=
  emit (Println ("Analizando información del archivo: " ++ file_path)) ;;;
  emit (Println rule) ;;;
  _ <- call (GetFileInfo file_path) (get_file_info lib file_path)
         ("Error al analizar el archivo: " ++ file_path) ;;
  ret tt.

Definition analyze_file_structure (file_path : string) : Run unit :=
  emit (Println ("Analizando estructura del archivo: " ++ file_path)) ;;;
  emit (Println rule) ;;;
  _ <- call (GetFileStructure file_path) (get_file_structure lib file_path)
         ("Error al analizar la estructura: " ++ file_path) ;;
  ret tt.

(** The front-end's [list_datasets]; the name without suffix is the
    library's. *)
Definition list_datasets_cmd (file_path : string) : Run unit :=
  emit (Println ("Listando datasets en: " ++ file_path)) ;;;
  emit (Println rule) ;;;
  _ <- call (ListDatasets file_path) (list_datasets lib file_path)
         ("Error al listar datasets: " ++ file_path) ;;
  ret tt.

Definition analyze_hecras_data (file_path : string) : Run unit :=
  emit (Println ("Extrayendo datos de HEC-RAS de: " ++ file_path)) ;;;
  emit (Println rule) ;;;
  _ <- call (ExtractHecrasData file_path) (extract_hecras_data lib file_path)
         ("Error al extraer datos de HEC-RAS: " ++ file_path) ;;
  ret tt.

(** The front-end's [read_dataset_sample]. *)
Definition read_dataset_sample_cmd
    (file_path dataset_path : string) (max_elements : N) : Run unit :=
  emit (Println ("Leyendo muestra del dataset: " ++ dataset_path)) ;;;
  emit (Println ("Archivo: " ++ file_path)) ;;;
  emit (Println ("Elementos máximos: " ++ show_N max_elements)) ;;;
  emit (Println rule) ;;;
  _ <- call (ReadDatasetSample file_path dataset_path max_elements)
         (read_dataset_sample lib file_path dataset_path max_elements)
         ("Error al leer dataset: " ++ dataset_path) ;;
  ret tt.

Definition missing_file : Run unit :=
  emit (Eprintln "Error: Se requiere la ruta del archivo HDF5") ;;;
  print_usage.

(** [args[i]]; every use is guarded by a test on [args.len()]. *)
Definition arg (args : list string) (i : nat) : string := nth i args "".

(** [main] from its second statement on: [args] is the vector of strings
    that [env::args().collect()] returned ([args[0]] is the program).  The
    collection itself, which panics on an argument that is not valid
    Unicode, is [Process.collect] below. *)
Definition main (args : list string) : Run unit :=
  if (List.length args <? 2)%nat then print_usage
  else
    let command := arg args 1 in
    if String.eqb command "info" then
      if (List.length args <? 3)%nat then missing_file
      else analyze_file_info (arg args 2)
    else if String.eqb command "structure" then
      if (List.length args <? 3)%nat then missing_file
      else analyze_file_structure (arg args 2)
    else if String.eqb command "datasets" then
      if (List.length args <? 3)%nat then missing_file
      else list_datasets_cmd (arg args 2)
    else if String.eqb command "hecras" then
      if (List.length args <? 3)%nat then missing_file
      else analyze_hecras_data (arg args 2)
    else if String.eqb command "sample" then
      if (List.length args <? 4)%nat then
        emit (Eprintln
          "Error: Se requiere la ruta del archivo HDF5 y el path del dataset") ;;;
        print_usage
      else
        let file_path := arg args 2 in
        let dataset_path := arg args 3 in
        let max_elements :=
          if (4 <? List.length args)%nat
          then unwrap_or (parse_usize (arg args 4)) 10
          else 10%N in
        read_dataset_sample_cmd file_path dataset_path max_elements
    else if String.eqb command "help" || String.eqb command "--help" || String.eqb command "-h" then
      print_usage
    else
      emit (Eprintln ("Error: Comando desconocido '" ++ command ++ "'")) ;;;
      print_usage.

(** The exit status of the process: 0 when [main] returns [Ok(())], 1 when
    it returns an error. *)
Definition exit_code (r : Run unit) : Z :=
  match snd r with
  | Ok _ => 0
  | Err _ => 1
  end.

(** The library calls of a run, in order. *)
Fixpoint invocations (tr : list Event) : list Call :=
  match tr with
  | [] => []
  | Invoke c :: rest => c :: invocations rest
  | _ :: rest => invocations rest
  end.

End FrontEnd.

(** An implementation in which every operation fails, and one in which
    every operation succeeds with an empty answer. *)
Definition failing : Analyzer :=
  {| FileInfo := unit; FileStructure := unit; HecRasData := unit; f64 := Q;
     get_file_info := fun _ => Err ["open failed"];
     get_file_structure := fun _ => Err ["open failed"];
     list_datasets := fun _ => Err ["open failed"];
     extract_hecras_data := fun _ => Err ["open failed"];
     read_dataset_sample := fun _ _ _ => Err ["open failed"] |}.

Definition succeeding : Analyzer :=
  {| FileInfo := unit; FileStructure := unit; HecRasData := unit; f64 := Q;
     get_file_info := fun _ => Ok tt;
     get_file_structure := fun _ => Ok tt;
     list_datasets := fun _ => Ok [];
     extract_hecras_data := fun _ => Ok tt;
     read_dataset_sample := fun _ _ _ => Ok [] |}.

End Cli.

(* ================================================================= *)
(** ** Vocabulary of the specification *)

(** Trees: the nodes reachable from a node, the names on the way down to
    each of them, and the lookup of a node by its [path]. *)
Module Tree.
Import RustTreeNode.

(** The node and everything below it, in pre-order. *)
Fixpoint nodes (n : t) : list t :=
  n :: flat_map nodes (children n).

(** The nodes reachable from [n] other than [n] itself. *)
Definition descendants (n : t) : list t := flat_map nodes (children n).

Definition count_nonroot (root : t) : nat := List.length (descendants root).

(** Every reachable node paired with the names of the nodes that lead to
    it from the root: the root's own name is not part of the key, the
    node's own name closes the list. *)
Fixpoint with_names (names : list string) (n : t) : list (list string * t) :=
  (names, n)
    :: flat_map (fun c => with_names (names ++ [name c]) c) (children n).

(** The slash-delimited key made of [names]: ["/"] for the empty list,
    ["/a/b"] for [["a"; "b"]]. *)
Definition key_of (names : list string) : string :=
  match names with
  | [] => "/"
  | _ => String.concat "" (map (fun s => "/" ++ s) names)
  end.

Definition path_is_key (e : list string * t) : Prop :=
  path (snd e) = key_of (fst e).

Definition leaf_if_dataset (n : t) : Prop :=
  node_type n = "dataset" -> children n = [].

(** The first reachable node whose [path] is [p]. *)
Definition resolve (root : t) (p : string) : option t :=
  find (fun n => String.eqb (path n) p) (nodes root).

(** Does [p] resolve to a dataset entry of the tree? *)
Definition resolves_to_dataset (root : t) (p : string) : bool :=
  match resolve root p with
  | Some n => String.eqb (node_type n) "dataset"
  | None => false
  end.

End Tree.

(** Which paths name an existing file. *)
Definition FileSystem : Type := string -> bool.

Definition no_files : FileSystem := fun _ => false.

(** Invalid usage of the front-end, as the specification lists it: no
    subcommand, an unknown subcommand, or a subcommand without its required
    arguments. *)
Definition invalid_usage (args : list string) : bool :=
  match args with
  | [] | [_] => true
  | _ :: command :: operands =>
      if String.eqb command "info" || String.eqb command "structure"
         || String.eqb command "datasets" || String.eqb command "hecras"
      then (List.length operands <? 1)%nat
      else if String.eqb command "sample" then (List.length operands <? 2)%nat
      else negb (String.eqb command "help" || String.eqb command "--help"
                 || String.eqb command "-h")
  end.

(** Did the library answer the call with an error? *)
Definition failed (lib : Cli.Analyzer) (c : Cli.Call) : bool :=
  let is_err {A : Type} (r : Cli.Result A) : bool :=
    match r with Cli.Ok _ => false | Cli.Err _ => true end in
  match c with
  | Cli.GetFileInfo p => is_err (Cli.get_file_info lib p)
  | Cli.GetFileStructure p => is_err (Cli.get_file_structure lib p)
  | Cli.ListDatasets p => is_err (Cli.list_datasets lib p)
  | Cli.ExtractHecrasData p => is_err (Cli.extract_hecras_data lib p)
  | Cli.ReadDatasetSample p d n => is_err (Cli.read_dataset_sample lib p d n)
  end.

(* ================================================================= *)
(** ** Auxiliary definitions *)

(** The record [analyzeHdf5Info] answers with when the clock is a valid time
    value. *)
Definition info_record (now : Z) (filePath : string) : RustFileInfo.t :=
  {| RustFileInfo.name :=
       Js.or_literal
         (Js.or_else (Js.pop (Js.split "/" filePath)) (Js.pop (Js.split Js.backslash filePath)))
         "unknown";
     RustFileInfo.path := filePath;
     RustFileInfo.size_mb := 10;
     RustFileInfo.modified := Js.iso_of_time now;
     RustFileInfo.accessible := true;
     RustFileInfo.groups_count := 5;
     RustFileInfo.datasets_count := 15;
     RustFileInfo.error := None |}.

(** The exit code is 1 exactly when a library call of the run failed. *)
Definition exit_follows_library (lib : Cli.Analyzer) (r : Cli.Run unit) : Prop :=
  Cli.exit_code r
  = if existsb (failed lib) (Cli.invocations (fst r)) then 1 else 0.

(** A run that only reports: no library call, the usage text, [Ok(())]. *)
Definition usage_only (r : Cli.Run unit) : Prop :=
  Cli.exit_code r = 0 /\ Cli.invocations (fst r) = [] /\ In Cli.Usage (fst r).

(* ================================================================= *)
(** ** String built-ins of the helpers *)

(** A string holds the bytes (UTF-8) of the JavaScript string.  The
    characters the helpers look for ([.], [p], the letters of the
    extensions and of the search words, the characters a path may not
    contain) are ASCII, one byte each, and no other character has one of
    them among its bytes, so finding and cutting at them is the same on the
    bytes as on the characters. *)
Module JsString.

(** [s.lastIndexOf(c)] for a one-character [c]: the index of its last
    occurrence, [-1] when there is none. *)
Fixpoint lastIndexOf (s : string) (c : ascii) : Z :=
  match s with
  | EmptyString => -1
  | String x rest =>
      let i := lastIndexOf rest c in
      if 0 <=? i then i + 1 else if Ascii.eqb x c then 0 else -1
  end.

(** [x >>> 0]: the integer [x] as an unsigned 32-bit number. *)
Definition toUint32 (x : Z) : Z := x mod 2 ^ 32.

(** The string without its first [n] characters. *)
Fixpoint skip (n : nat) (s : string) : string :=
  match n, s with
  | O, _ => s
  | S k, String _ rest => skip k rest
  | S _, EmptyString => EmptyString
  end.

(** [s.slice(start)]: a negative [start] counts from the end. *)
Definition slice_from (s : string) (start : Z) : string :=
  let len := Z.of_nat (String.length s) in
  let from := if start <? 0 then Z.max (len + start) 0 else Z.min start len in
  skip (Z.to_nat from) s.

Definition lower_char (c : ascii) : ascii :=
  let n := N_of_ascii c in
  if ((65 <=? n) && (n <=? 90))%N then ascii_of_N (n + 32) else c.

(** [s.toLowerCase()] on the letters A..Z; the other bytes are kept (the
    lower case of the characters outside ASCII is not modelled; none of
    them becomes one of the ASCII letters the callers compare with). *)
Fixpoint toLowerCase (s : string) : string :=
  match s with
  | EmptyString => EmptyString
  | String c rest => String (lower_char c) (toLowerCase rest)
  end.

(** [s.startsWith(p)] *)
Fixpoint startsWith (s p : string) : bool :=
  match p, s with
  | EmptyString, _ => true
  | String x p', String y s' => Ascii.eqb x y && startsWith s' p'
  | String _ _, EmptyString => false
  end.

(** [s.includes(sub)] *)
Fixpoint includes (s sub : string) : bool :=
  startsWith s sub
  || match s with
     | EmptyString => false
     | String _ rest => includes rest sub
     end.

(** [/[...]/.test(s)] for a class of characters: does one of them occur? *)
Fixpoint test_class (class : list ascii) (s : string) : bool :=
  match s with
  | EmptyString => false
  | String c rest => existsb (Ascii.eqb c) class || test_class class rest
  end.

End JsString.

(* ================================================================= *)
(** ** The path and file-name helpers of [src/lib/utils.ts] *)

Module Utils.
Import JsString.

(** The character class of the pattern [invalidChars]: less-than,
    greater-than, colon, double quote (code 034), bar, question mark, star. *)
Definition invalidChars : list ascii :=
  ["<"; ">"; ":"; "034"; "|"; "?"; "*"]%char.

(** [isValidPath]; the argument is a string, so [!path] holds of the empty
    string only. *)
Definition isValidPath (path : string) : bool :=
  if String.eqb path "" then false
  else negb (test_class invalidChars path) && (0 <? String.length path)%nat.

(** [getFileExtension] *)
Definition getFileExtension (filename : string) : string :=
  slice_from filename (toUint32 (lastIndexOf filename "." - 1) + 2).

(** [isHdfFile] *)
Definition isHdfFile (filename : string) : bool :=
  let ext := toLowerCase (getFileExtension filename) in
  String.eqb ext "hdf" || String.eqb ext "hdf5" || String.eqb ext "h5".

(** [isPlanFile] *)
Definition isPlanFile (filename : string) : bool :=
  let name := toLowerCase filename in
  startsWith name "p" && isHdfFile filename.

End Utils.

(* ================================================================= *)
(** ** JavaScript values *)

(** The values the results are made of: what an object literal of the
    source denotes, also where a property it reads is missing. *)
Module JsValue.

Inductive t : Type :=
| Undefined
| NaN
| Bool (b : bool)
| Number (q : Q)
| Str (s : string)
| Array (items : list t)
| Object (properties : list (string * t)).

(** Does the value have a property of that name? *)
Definition has_property (name : string) (v : t) : bool :=
  match v with
  | Object properties => existsb (fun p => String.eqb (fst p) name) properties
  | _ => false
  end.

(** A property that is there only when the optional field is. *)
Definition optional (name : string) (field : option string) : list (string * t) :=
  match field with
  | Some s => [(name, Str s)]
  | None => []
  end.

Definition of_strings (l : list string) : t := Array (map Str l).

Definition of_numbers (l : list Q) : t := Array (map Number l).

Definition of_integers (l : list Z) : t := Array (map (fun z => Number (inject_Z z)) l).

(** [RustFileInfo] *)
Definition of_info (r : RustFileInfo.t) : t :=
  Object
    ([ ("name", Str (RustFileInfo.name r));
       ("path", Str (RustFileInfo.path r));
       ("size_mb", Number (RustFileInfo.size_mb r));
       ("modified", Str (RustFileInfo.modified r));
       ("accessible", Bool (RustFileInfo.accessible r));
       ("groups_count", Number (inject_Z (RustFileInfo.groups_count r)));
       ("datasets_count", Number (inject_Z (RustFileInfo.datasets_count r))) ]
     ++ optional "error" (RustFileInfo.error r))%list.

(** [RustTreeNode] *)
Fixpoint of_node (n : RustTreeNode.t) : t :=
  Object
    ([ ("name", Str (RustTreeNode.name n));
       ("path", Str (RustTreeNode.path n));
       ("node_type", Str (RustTreeNode.node_type n));
       ("children", Array (map of_node (RustTreeNode.children n)));
       ("attributes",
        Object (map (fun kv => (fst kv, Str (snd kv))) (RustTreeNode.attributes n))) ]
     ++ match RustTreeNode.shape n with
        | Some shape => [("shape", of_integers shape)]
        | None => []
        end
     ++ optional "dtype" (RustTreeNode.dtype n))%list.

(** [RustFileStructure] *)
Definition of_structure (s : RustFileStructure.t) : t :=
  Object
    ([ ("file_path", Str (RustFileStructure.file_path s));
       ("root", of_node (RustFileStructure.root s));
       ("total_groups", Number (inject_Z (RustFileStructure.total_groups s)));
       ("total_datasets", Number (inject_Z (RustFileStructure.total_datasets s))) ]
     ++ optional "error" (RustFileStructure.error s))%list.

(** [RustHecRasData] *)
Definition of_hecras (d : RustHecRasData.t) : t :=
  Object
    [ ("file", Str (RustHecRasData.file d));
      ("geometry_data",
       Object (map (fun kv => (fst kv, of_numbers (snd kv)))
                 (RustHecRasData.geometry_data d)));
      ("results_data",
       Object (map (fun kv => (fst kv, of_numbers (snd kv)))
                 (RustHecRasData.results_data d)));
      ("metadata",
       Object (map (fun kv => (fst kv, Str (snd kv))) (RustHecRasData.metadata d)));
      ("extraction_summary",
       Object (map (fun kv => (fst kv, Number (inject_Z (snd kv))))
                 (RustHecRasData.extraction_summary d))) ].

End JsValue.

(* ================================================================= *)
(** ** The file search of [src/lib/utils.ts] *)

(** The declared type of the files of the answer. *)
Module HdfExplorerFileInfo.
Record t : Type := mk
  { path : string;
    name : string;
    size_mb : Q;
    accessible : bool;
    groups : Z;
    datasets : Z;
    modified : string }.
End HdfExplorerFileInfo.

(** The answer of the backend command [find_hdf_files], as declared: the
    files are objects with the properties of [HdfExplorerFileInfo] and no
    others. *)
Module HdfExplorerFilesResponse.
Record t : Type := mk
  { success : bool;
    files : list HdfExplorerFileInfo.t;
    count : Z;
    error : option string }.
End HdfExplorerFilesResponse.

Module Commands.
Import Js.

(** [findHdfFiles]; [backend] is what [pyInvoke("find_hdf_files", ...)]
    settles with for a project path. *)
Definition findHdfFiles
    (backend : string -> Settled HdfExplorerFilesResponse.t)
    (projectPath : string) : Async HdfExplorerFilesResponse.t :=
  try_log_rethrow "Error finding HDF files:" (backend projectPath).

(** The object the callback of [response.files.map(...)] builds for a
    file.  It reads [file.filename], [file.full_path], [file.size],
    [file.can_process] and [file.error]; a file of the declared type has
    none of these properties, so each read is [undefined] and
    [file.size / (1024 * 1024)] is [NaN]. *)
Definition converted (file : HdfExplorerFileInfo.t) (iso : string) : JsValue.t :=
  JsValue.Object
    [ ("name", JsValue.Undefined);
      ("path", JsValue.Undefined);
      ("size_mb", JsValue.NaN);
      ("modified", JsValue.Str iso);
      ("accessible", JsValue.Undefined);
      ("groups_count", JsValue.Number 5);
      ("datasets_count", JsValue.Number 15);
      ("error", JsValue.Undefined) ].

(** [response.files.map(...)] on the files from the [i]-th on; [clock i]
    is what [new Date()] reads while the [i]-th file is converted. *)
Fixpoint convert_files
    (clock : nat -> Z) (i : nat) (files : list HdfExplorerFileInfo.t)
  : Settled (list JsValue.t) :=
  match files with
  | [] => Resolved []
  | file :: rest =>
      bind (toISOString (newDate (clock i))) (fun iso =>
      bind (convert_files clock (S i) rest) (fun others =>
      Resolved (converted file iso :: others)))
  end.

(** [findHdf5Files] *)
Definition findHdf5Files
    (clock : nat -> Z)
    (backend : string -> Settled HdfExplorerFilesResponse.t)
    (folderPath : string) : Async (list JsValue.t) :=
  let inner := findHdfFiles backend folderPath in
  let outer :=
    try_log_rethrow "Error finding HDF5 files:"
      (bind (settled inner) (fun response =>
         if negb (HdfExplorerFilesResponse.success response)
         then Rejected
                (Error (or_literal (HdfExplorerFilesResponse.error response)
                          "Error finding HDF files"))
         else convert_files clock 0 (HdfExplorerFilesResponse.files response))) in
  mkAsync (console inner ++ console outer)%list (settled outer).

End Commands.

(* ================================================================= *)
(** ** The file list of [src/pages/HdfAnalysisPage.tsx] *)

Module Page.
Import JsString.

Section Filter.

(** [String.prototype.toLowerCase], taken as it is: any function. *)
Variable toLowerCase : string -> string.

(** [matchesSearch] of the filter callback. *)
Definition matchesSearch (searchTerm : string) (file : RustFileInfo.t) : bool :=
  String.eqb searchTerm ""
  || includes (toLowerCase (RustFileInfo.name file)) (toLowerCase searchTerm)
  || includes (toLowerCase (RustFileInfo.path file)) (toLowerCase searchTerm).

(** [matchesFilter] of the filter callback. *)
Definition matchesFilter (filterType : string) (file : RustFileInfo.t) : bool :=
  let name := toLowerCase (RustFileInfo.name file) in
  String.eqb filterType "all"
  || (String.eqb filterType "plans" && startsWith name "p")
  || (String.eqb filterType "geometries"
      && (includes name "geom" || includes name "geometry"))
  || (String.eqb filterType "results"
      && (includes name "result" || includes name "output")).

(** [filteredFiles], from the files, the search term and the filter type of
    the page state. *)
Definition filteredFiles
    (files : list RustFileInfo.t) (searchTerm filterType : string)
  : list RustFileInfo.t :=
  filter (fun file => matchesSearch searchTerm file && matchesFilter filterType file)
    files.

End Filter.

End Page.

(* ================================================================= *)
(** ** The tree printer of [src-tauri/hdf5_analyzer.rs.bak] *)

Module Report.

(** ["  ".repeat(depth)] *)
Fixpoint indent (depth : nat) : string :=
  match depth with
  | O => EmptyString
  | S d => "  " ++ indent d
  end.

Definition icon (node_type : string) : string :=
  if String.eqb node_type "group" then "📁"
  else if String.eqb node_type "dataset" then "📄"
  else "❓".

Definition show_Z (z : Z) : string := NilZero.string_of_int (Z.to_int z).

(** [{:?}] of a vector of integers. *)
Definition debug_shape (shape : list Z) : string :=
  "[" ++ String.concat ", " (map show_Z shape) ++ "]".

(** The line of the node itself. *)
Definition node_line (node : RustTreeNode.t) (depth : nat) : string :=
  indent depth ++ icon (RustTreeNode.node_type node) ++ " "
    ++ RustTreeNode.name node
    ++ (if String.eqb (RustTreeNode.node_type node) "dataset"
        then match RustTreeNode.shape node with
             | Some shape => " " ++ debug_shape shape
             | None => ""
             end
             ++ match RustTreeNode.dtype node with
                | Some dtype => " (" ++ dtype ++ ")"
                | None => ""
                end
        else "").

(** The lines of the attributes, printed down to depth 2 only. *)
Definition attribute_lines (node : RustTreeNode.t) (depth : nat) : list string :=
  match RustTreeNode.attributes node with
  | [] => []
  | attributes =>
      if (depth <? 3)%nat
      then map (fun kv => indent depth ++ "  📋 " ++ fst kv ++ ": " ++ snd kv)
             attributes
      else []
  end.

(** [print_tree_node]: what it writes to the standard output, one entry
    per [println!], in order.  The library's [TreeNode] has the fields of
    [RustTreeNode]; its attributes are listed in the order the map yields
    them. *)
Fixpoint print_tree_node (node : RustTreeNode.t) (depth : nat) : list string :=
  (node_line node depth
     :: attribute_lines node depth
     ++ flat_map (fun child => print_tree_node child (S depth))
          (RustTreeNode.children node))%list.

End Report.

(* ================================================================= *)
(** ** Vocabulary for the further properties *)

(** The extensions [isHdfFile] accepts, in lower case. *)
Definition hdf_extensions : list string := ["hdf"; "hdf5"; "h5"].

(** The error the library answers a call with, if it does. *)
Definition error_of (lib : Cli.Analyzer) (c : Cli.Call) : option Cli.AnyhowError :=
  let err {A : Type} (r : Cli.Result A) : option Cli.AnyhowError :=
    match r with Cli.Ok _ => None | Cli.Err e => Some e end in
  match c with
  | Cli.GetFileInfo p => err (Cli.get_file_info lib p)
  | Cli.GetFileStructure p => err (Cli.get_file_structure lib p)
  | Cli.ListDatasets p => err (Cli.list_datasets lib p)
  | Cli.ExtractHecrasData p => err (Cli.extract_hecras_data lib p)
  | Cli.ReadDatasetSample p d n => err (Cli.read_dataset_sample lib p d n)
  end.

(** The context message the front-end attaches to a failed call. *)
Definition context_of (c : Cli.Call) : string :=
  match c with
  | Cli.GetFileInfo p => "Error al analizar el archivo: " ++ p
  | Cli.GetFileStructure p => "Error al analizar la estructura: " ++ p
  | Cli.ListDatasets p => "Error al listar datasets: " ++ p
  | Cli.ExtractHecrasData p => "Error al extraer datos de HEC-RAS: " ++ p
  | Cli.ReadDatasetSample _ d _ => "Error al leer dataset: " ++ d
  end.

(** A run either calls nothing and succeeds, or makes one call and returns
    what the call answered, an error with its context in front. *)
Definition single_call (lib : Cli.Analyzer) (r : Cli.Run unit) : Prop :=
  (Cli.invocations (fst r) = [] /\ snd r = Cli.Ok tt)
  \/ exists c,
       Cli.invocations (fst r) = [c]
       /\ snd r = match error_of lib c with
                  | Some e => Cli.Err (context_of c :: e)
                  | None => Cli.Ok tt
                  end.

Definition is_digit (c : ascii) : Prop :=
  (48 <= N_of_ascii c <= 57)%N.

(** The value of a decimal numeral read from its most significant digit,
    after the digits already read as [acc]. *)
Fixpoint horner (acc : N) (d : Decimal.uint) : N :=
  match d with
  | Decimal.Nil => acc
  | Decimal.D0 l => horner (acc * 10 + 0) l
  | Decimal.D1 l => horner (acc * 10 + 1) l
  | Decimal.D2 l => horner (acc * 10 + 2) l
  | Decimal.D3 l => horner (acc * 10 + 3) l
  | Decimal.D4 l => horner (acc * 10 + 4) l
  | Decimal.D5 l => horner (acc * 10 + 5) l
  | Decimal.D6 l => horner (acc * 10 + 6) l
  | Decimal.D7 l => horner (acc * 10 + 7) l
  | Decimal.D8 l => horner (acc * 10 + 8) l
  | Decimal.D9 l => horner (acc * 10 + 9) l
  end%N.

(** Induction on a tree, with the property at hand for all the children. *)
Fixpoint tree_induction
    (P : RustTreeNode.t -> Prop)
    (step : forall n, Forall P (RustTreeNode.children n) -> P n)
    (n : RustTreeNode.t) : P n :=
  step n
    ((fix all (l : list RustTreeNode.t) : Forall P l :=
        match l with
        | [] => Forall_nil P
        | c :: cs => Forall_cons c (tree_induction P step c) (all cs)
        end) (RustTreeNode.children n)).

(* ================================================================= *)
(** ** The process of the front-end *)

(** [main] from its first line: [env::args().collect()] panics when an
    argument of the process is not valid Unicode, and [Cli.main] is what
    follows it on the collected strings. *)
Module Process.

(** An argument as the operating system passes it. *)
Inductive OsString : Type :=
| Unicode (text : string)
| NotUnicode (raw : list Byte.byte).

(** [env::args().collect()]; [None] is the panic. *)
Fixpoint collect (argv : list OsString) : option (list string) :=
  match argv with
  | [] => Some []
  | Unicode text :: rest =>
      match collect rest with
      | Some args => Some (text :: args)
      | None => None
      end
  | NotUnicode _ :: _ => None
  end.

Inductive Outcome : Type :=
| Panicked
| Returned (r : Cli.Run unit).

Definition start (usize_bits : N) (lib : Cli.Analyzer) (argv : list OsString)
  : Outcome :=
  match collect argv with
  | None => Panicked
  | Some args => Returned (Cli.main usize_bits lib args)
  end.

(** The exit status of the process: 101 after a panic, otherwise that of
    the [Result] of [main]. *)
Definition exit_status (o : Outcome) : Z :=
  match o with
  | Panicked => 101
  | Returned r => Cli.exit_code r
  end.

End Process.

(* ================================================================= *)
(** ** Further vocabulary *)

(** The flattened contents of the dataset that a file path and a dataset
    path name, when they name one. *)
Definition Datasets : Type := string -> string -> option (list Q).

(** A store in which every dataset has three elements. *)
Definition three_elements : Datasets := fun _ _ => Some [1.0; 2.0; 3.0]%Q.

(** What an invalid usage makes the front-end write: the usage text alone
    when there is no subcommand, an error line and the usage text
    otherwise. *)
Definition usage_report (args : list string) (trace : list Cli.Event) : Prop :=
  if (List.length args <? 2)%nat then trace = [Cli.Usage]
  else exists line, trace = [Cli.Eprintln line; Cli.Usage].

(** Two names that differ at most in the case of the letters A..Z. *)
Definition same_but_ascii_case (a b : string) : Prop :=
  map JsString.lower_char (list_ascii_of_string a)
  = map JsString.lower_char (list_ascii_of_string b).

Definition newline : ascii := "010".

(** The text written by a sequence of [println!]. *)
Fixpoint printed (records : list string) : string :=
  match records with
  | [] => EmptyString
  | r :: rest => r ++ String newline (printed rest)
  end.

(** The lines of a text in which every line ends with a newline. *)
Definition lines (text : string) : list string :=
  removelast (Js.split newline text).

Definition newline_free (s : string) : Prop :=
  ~ In newline (list_ascii_of_string s).

(** A node whose name, type description and attributes contain no
    newline. *)
Definition one_line_node (n : RustTreeNode.t) : Prop :=
  newline_free (RustTreeNode.name n)
  /\ (forall dtype, RustTreeNode.dtype n = Some dtype -> newline_free dtype)
  /\ Forall (fun kv => newline_free (fst kv) /\ newline_free (snd kv))
       (RustTreeNode.attributes n).

(* ================================================================= *)
(** ** The model on concrete inputs *)

Example iso_epoch : Js.iso_of_time 0 = "1970-01-01T00:00:00.000Z".
Proof. reflexivity. Qed.

Example iso_sample : Js.iso_of_time 1794787200123 = "2026-11-16T00:00:00.123Z".
Proof. vm_compute. reflexivity. Qed.

Example iso_before_epoch : Js.iso_of_time (-1) = "1969-12-31T23:59:59.999Z".
Proof. vm_compute. reflexivity. Qed.

Example iso_leap : Js.iso_of_time 951782400000 = "2000-02-29T00:00:00.000Z".
Proof. vm_compute. reflexivity. Qed.

Example iso_far : Js.iso_of_time 8640000000000000 = "+275760-09-13T00:00:00.000Z".
Proof. vm_compute. reflexivity. Qed.

Example iso_far_back : Js.iso_of_time (-8640000000000000) = "-271821-04-20T00:00:00.000Z".
Proof. vm_compute. reflexivity. Qed.

Example info_unix_path :
  Js.settled (Facade.analyzeHdf5Info 0 "/data/plan.p01.hdf")
  = Js.Resolved
      {| RustFileInfo.name := "plan.p01.hdf";
         RustFileInfo.path := "/data/plan.p01.hdf";
         RustFileInfo.size_mb := 10;
         RustFileInfo.modified := "1970-01-01T00:00:00.000Z";
         RustFileInfo.accessible := true;
         RustFileInfo.groups_count := 5;
         RustFileInfo.datasets_count := 15;
         RustFileInfo.error := None |}.
Proof. vm_compute. reflexivity. Qed.

(** A path without [/] is its own last segment, so the split on the
    backslash is not reached. *)
Example info_windows_path :
  exists r, Js.settled (Facade.analyzeHdf5Info 0 "C:\data\plan.p01.hdf") = Js.Resolved r
            /\ RustFileInfo.name r = "C:\data\plan.p01.hdf".
Proof. eexists. split; vm_compute; reflexivity. Qed.

Example info_empty_path :
  exists r, Js.settled (Facade.analyzeHdf5Info 0 "") = Js.Resolved r
            /\ RustFileInfo.name r = "unknown".
Proof. eexists. split; vm_compute; reflexivity. Qed.

Example sample_three :
  Js.settled (Facade.readHdf5DatasetSample "plan.hdf" "/Results/2D/MaxWSE" (Some 3))
  = Js.Resolved [10.5; 11.2; 9.8]%Q.
Proof. reflexivity. Qed.

Example sample_default :
  Js.settled (Facade.readHdf5DatasetSample "plan.hdf" "/Results/2D/MaxWSE" None)
  = Js.Resolved Facade.mockData.
Proof. reflexivity. Qed.

(** A negative count drops elements from the back. *)
Example sample_negative :
  Js.settled (Facade.readHdf5DatasetSample "plan.hdf" "/Results/2D/MaxWSE" (Some (-8)))
  = Js.Resolved [10.5; 11.2]%Q.
Proof. reflexivity. Qed.

Example parse_plus : Cli.parse_usize 64 "+20" = Some 20%N.
Proof. reflexivity. Qed.

Example parse_minus : Cli.parse_usize 64 "-20" = None.
Proof. reflexivity. Qed.

Example parse_max : Cli.parse_usize 64 "18446744073709551615" = Some 18446744073709551615%N.
Proof. vm_compute. reflexivity. Qed.

Example parse_overflow : Cli.parse_usize 64 "18446744073709551616" = None.
Proof. vm_compute. reflexivity. Qed.

(** An argument that is not valid Unicode: the process panics before it
    looks at the subcommand. *)
Example start_not_unicode :
  Process.start 64 Cli.succeeding
    [Process.Unicode "hdf5_analyzer"; Process.Unicode "info";
     Process.NotUnicode [Byte.xff]]
  = Process.Panicked.
Proof. reflexivity. Qed.

Example main_sample_failing :
  Cli.main 64 Cli.failing ["hdf5_analyzer"; "sample"; "f.hdf"; "/a"; "7"]
  = ([Cli.Println "Leyendo muestra del dataset: /a";
      Cli.Println "Archivo: f.hdf";
      Cli.Println "Elementos máximos: 7";
      Cli.Println Cli.rule;
      Cli.Invoke (Cli.ReadDatasetSample "f.hdf" "/a" 7)],
     Cli.Err ["Error al leer dataset: /a"; "open failed"]).
Proof. vm_compute. reflexivity. Qed.

(* ================================================================= *)
(** ** Lemmas on the built-ins *)

Section Slice.
Context {A : Type}.
Implicit Types (a : list A) (n : Z).

Lemma slice0_prefix a n :
  0 <= n -> Js.slice0 a n = firstn (Z.to_nat n) a.
Proof.
  intros Hn. unfold Js.slice0.
  destruct (Z.ltb_spec n 0) as [Hneg | _]; [lia |].
  destruct (Z.min_spec n (Z.of_nat (List.length a))) as [[Hlt ->] | [Hge ->]].
  - reflexivity.
  - rewrite Nat2Z.id, firstn_all.
    symmetry. apply firstn_all2. lia.
Qed.

Lemma slice0_length a n :
  0 <= n ->
  Z.of_nat (List.length (Js.slice0 a n)) = Z.min n (Z.of_nat (List.length a)).
Proof.
  intros Hn. rewrite slice0_prefix by assumption.
  rewrite length_firstn. lia.
Qed.

(** Whatever the sign of the end index, the slice is no longer than the
    array. *)
Lemma slice0_length_le a n :
  (List.length (Js.slice0 a n) <= List.length a)%nat.
Proof.
  unfold Js.slice0. rewrite length_firstn. apply Nat.le_min_r.
Qed.

End Slice.

Lemma try_log_rethrow_resolved {A : Type} (label : string) (v : A) :
  Js.try_log_rethrow label (Js.Resolved v) = Js.mkAsync [] (Js.Resolved v).
Proof. reflexivity. Qed.

(** An exception raised in the body of an operation would be logged and
    thrown on to the caller. *)
Lemma try_log_rethrow_rejected {A : Type} (label : string) (e : Js.JsError) :
  Js.settled (Js.try_log_rethrow (A := A) label (Js.Rejected e)) = Js.Rejected e.
Proof. reflexivity. Qed.

Lemma timeClip_valid (t : Z) : Js.valid_time t -> Js.timeClip t = Some t.
Proof.
  unfold Js.valid_time, Js.timeClip. intros [Hlo Hhi].
  apply Z.leb_le in Hlo, Hhi. now rewrite Hlo, Hhi.
Qed.

Lemma analyzeHdf5Info_resolved (now : Z) (filePath : string) :
  Js.valid_time now ->
  Facade.analyzeHdf5Info now filePath
  = Js.mkAsync [] (Js.Resolved (info_record now filePath)).
Proof.
  intros Hnow. unfold Facade.analyzeHdf5Info, Js.newDate.
  rewrite (timeClip_valid _ Hnow). reflexivity.
Qed.

(* ================================================================= *)
(** ** The sampling reader *)

(** C1, as the specification states it, fails: where the paths name a
    dataset of three elements, a sample of at most five has five elements
    and not [min 5 3]. *)
Lemma sample_exceeds_dataset_length :
  three_elements "plan.p01.hdf" "/Results/2D/MaxWSE" = Some [1.0; 2.0; 3.0]%Q
  /\ ~ (exists data,
          Js.settled
            (Facade.readHdf5DatasetSample "plan.p01.hdf" "/Results/2D/MaxWSE" (Some 5))
          = Js.Resolved data
          /\ Z.of_nat (List.length data)
             = Z.min 5 (Z.of_nat (List.length [1.0; 2.0; 3.0]%Q))).
Proof.
  split; [reflexivity |].
  intros (data & Hdata & Hlen).
  vm_compute in Hdata. injection Hdata as <-. vm_compute in Hlen. discriminate Hlen.
Qed.

(** C1, amended.  For every file path, dataset path and maximum element
    count [N >= 0], [readHdf5DatasetSample] returns a sequence of at most
    [N] elements; also where the paths name a valid dataset, whatever its
    length, it returns exactly [min N 10] elements, the first ones of the
    fixed sequence of ten numbers. *)
Theorem sample_returns_mock_prefix
    (datasets : Datasets) (filePath datasetPath : string)
    (contents : list Q) (N : Z) :
  datasets filePath datasetPath = Some contents ->
  0 <= N ->
  exists data,
    Js.settled (Facade.readHdf5DatasetSample filePath datasetPath (Some N))
    = Js.Resolved data
    /\ Z.of_nat (List.length data) <= N
    /\ Z.of_nat (List.length data) = Z.min N 10
    /\ data
       = firstn (Z.to_nat N)
           [10.5; 11.2; 9.8; 12.1; 10.9; 11.5; 10.3; 12.8; 9.5; 11.8]%Q.
Proof.
  intros _ HN. exists (Js.slice0 Facade.mockData N).
  split; [reflexivity |].
  pose proof (slice0_length Facade.mockData N HN) as Hlen.
  change (Z.of_nat (List.length Facade.mockData)) with 10 in Hlen.
  repeat split.
  - lia.
  - exact Hlen.
  - now apply slice0_prefix.
Qed.

Lemma sample_returns_mock_prefix_witness :
  three_elements "plan.p01.hdf" "/Results/2D/MaxWSE" = Some [1.0; 2.0; 3.0]%Q
  /\ 0 <= 5
  /\ exists data,
       Js.settled
         (Facade.readHdf5DatasetSample "plan.p01.hdf" "/Results/2D/MaxWSE" (Some 5))
       = Js.Resolved data
       /\ Z.of_nat (List.length data) <= 5
       /\ Z.of_nat (List.length data) = Z.min 5 10
       /\ data
          = firstn (Z.to_nat 5)
              [10.5; 11.2; 9.8; 12.1; 10.9; 11.5; 10.3; 12.8; 9.5; 11.8]%Q.
Proof.
  assert (H1 : three_elements "plan.p01.hdf" "/Results/2D/MaxWSE"
               = Some [1.0; 2.0; 3.0]%Q) by reflexivity.
  assert (H2 : 0 <= 5) by lia.
  split; [exact H1 |]. split; [exact H2 |].
  exact (sample_returns_mock_prefix three_elements
           "plan.p01.hdf" "/Results/2D/MaxWSE" _ 5 H1 H2).
Defined.

(** C9.  The result of [readHdf5DatasetSample] does not depend on the file
    path or on the dataset path: two calls with the same [maxElements]
    return the same outcome, hence the same numeric sequence. *)
Theorem sample_ignores_paths
    (filePath1 datasetPath1 filePath2 datasetPath2 : string) (maxElements : option Z) :
  Facade.readHdf5DatasetSample filePath1 datasetPath1 maxElements
  = Facade.readHdf5DatasetSample filePath2 datasetPath2 maxElements.
Proof. reflexivity. Qed.

(** C5, as the specification states it, fails: in the tree that
    [analyzeHdf5Structure] reports for a file, [/Geometry] is a group, and
    sampling [/Geometry] of that file returns five numbers instead of
    failing. *)
Lemma sample_of_group_returns_data :
  exists s,
    Js.settled (Facade.analyzeHdf5Structure "plan.p01.hdf") = Js.Resolved s
    /\ Tree.resolves_to_dataset (RustFileStructure.root s) "/Geometry" = false
    /\ Js.settled (Facade.readHdf5DatasetSample "plan.p01.hdf" "/Geometry" (Some 5))
       = Js.Resolved [10.5; 11.2; 9.8; 12.1; 10.9]%Q
    /\ ~ (exists e,
            Js.settled (Facade.readHdf5DatasetSample "plan.p01.hdf" "/Geometry" (Some 5))
            = Js.Rejected e).
Proof.
  eexists. split; [reflexivity |].
  split; [reflexivity |].
  split; [reflexivity |].
  intros [e He]. discriminate He.
Qed.

(** C5, amended.  Whatever the contents of the file, and also when the
    dataset path does not resolve to a dataset entry of it,
    [readHdf5DatasetSample] never fails: it resolves with a prefix of
    [mockData] and logs nothing. *)
Theorem sample_never_fails
    (contents : RustTreeNode.t) (filePath datasetPath : string)
    (maxElements : option Z) :
  Tree.resolves_to_dataset contents datasetPath = false ->
  exists k : nat,
    Facade.readHdf5DatasetSample filePath datasetPath maxElements
    = Js.mkAsync [] (Js.Resolved (firstn k Facade.mockData)).
Proof.
  intros _. unfold Facade.readHdf5DatasetSample, Js.slice0.
  eexists. reflexivity.
Qed.

Lemma sample_never_fails_witness :
  Tree.resolves_to_dataset (Facade.mock_group "root" "/" []) "/Results" = false /\
  exists k : nat,
    Facade.readHdf5DatasetSample "plan.p01.hdf" "/Results" (Some 4)
    = Js.mkAsync [] (Js.Resolved (firstn k Facade.mockData)).
Proof.
  split; [reflexivity |].
  apply (sample_never_fails (Facade.mock_group "root" "/" [])). reflexivity.
Defined.

(* ================================================================= *)
(** ** The structure operation *)

(** C2, as the specification states it, fails: the reported totals add up
    to 20 while two nodes are reachable below the returned root. *)
Lemma structure_totals_differ_from_node_count :
  exists s,
    Js.settled (Facade.analyzeHdf5Structure "plan.p01.hdf") = Js.Resolved s
    /\ RustFileStructure.total_groups s + RustFileStructure.total_datasets s
       <> Z.of_nat (Tree.count_nonroot (RustFileStructure.root s)).
Proof.
  eexists. split; [reflexivity |]. vm_compute. discriminate.
Qed.

(** C2, amended.  For every file path [analyzeHdf5Structure] reports the
    constants [total_groups = 5] and [total_datasets = 15]; the root it
    returns has exactly two reachable non-root nodes, both of them groups. *)
Theorem structure_totals_are_constants (filePath : string) :
  exists s,
    Js.settled (Facade.analyzeHdf5Structure filePath) = Js.Resolved s
    /\ RustFileStructure.total_groups s = 5
    /\ RustFileStructure.total_datasets s = 15
    /\ Tree.count_nonroot (RustFileStructure.root s) = 2%nat
    /\ Forall (fun n => RustTreeNode.node_type n = "group")
         (Tree.descendants (RustFileStructure.root s)).
Proof.
  eexists. split; [reflexivity |].
  repeat split. cbn. repeat constructor.
Qed.

(** C7.  In every tree returned by [analyzeHdf5Structure] the root's path
    is ["/"], the path of every node is the slash-delimited concatenation of
    the names that lead to it from the root, and every node of kind
    ["dataset"] has no children. *)
Theorem structure_tree_invariant (filePath : string) :
  exists s,
    Js.settled (Facade.analyzeHdf5Structure filePath) = Js.Resolved s
    /\ RustTreeNode.path (RustFileStructure.root s) = "/"
    /\ Forall Tree.path_is_key (Tree.with_names [] (RustFileStructure.root s))
    /\ Forall Tree.leaf_if_dataset (Tree.nodes (RustFileStructure.root s)).
Proof.
  eexists. split; [reflexivity |].
  split; [reflexivity |].
  split.
  - cbn. repeat constructor.
  - cbn. repeat constructor; intros H; discriminate H.
Qed.

(* ================================================================= *)
(** ** The info operation *)

(** C4, as the specification states it, fails: with no file on disk at all,
    [analyzeHdf5Info] of a path answers [accessible = true]. *)
Lemma info_of_missing_file_is_accessible :
  no_files "/no/such/plan.hdf" = false
  /\ ~ (exists r,
          Js.settled (Facade.analyzeHdf5Info 0 "/no/such/plan.hdf") = Js.Resolved r
          /\ RustFileInfo.accessible r = false
          /\ exists msg, RustFileInfo.error r = Some msg /\ msg <> "").
Proof.
  split; [reflexivity |].
  intros (r & Hr & Hacc & _).
  vm_compute in Hr. injection Hr as <-. discriminate Hacc.
Qed.

(** C4, amended.  For every path, whether or not it names an existing
    file, [analyzeHdf5Info] does not throw: it resolves with a record whose
    [accessible] is [true] and which carries no error string. *)
Theorem info_of_missing_file_resolves
    (fs : FileSystem) (now : Z) (filePath : string) :
  Js.valid_time now ->
  fs filePath = false ->
  exists r,
    Facade.analyzeHdf5Info now filePath = Js.mkAsync [] (Js.Resolved r)
    /\ RustFileInfo.path r = filePath
    /\ RustFileInfo.accessible r = true
    /\ RustFileInfo.error r = None.
Proof.
  intros Hnow _. exists (info_record now filePath).
  split; [now apply analyzeHdf5Info_resolved |].
  repeat split.
Qed.

Lemma info_of_missing_file_resolves_witness :
  Js.valid_time 1794787200123 /\
  no_files "/no/such/plan.hdf" = false /\
  exists r,
    Facade.analyzeHdf5Info 1794787200123 "/no/such/plan.hdf"
    = Js.mkAsync [] (Js.Resolved r)
    /\ RustFileInfo.path r = "/no/such/plan.hdf"
    /\ RustFileInfo.accessible r = true
    /\ RustFileInfo.error r = None.
Proof.
  assert (Hnow : Js.valid_time 1794787200123) by (unfold Js.valid_time, Js.maxTimeValue; lia).
  split; [exact Hnow |]. split; [reflexivity |].
  apply (info_of_missing_file_resolves no_files); [exact Hnow | reflexivity].
Defined.

(* ================================================================= *)
(** ** The five operations together *)

(** C6, as the specification states it, fails: what [listHdf5Datasets] and
    [readHdf5DatasetSample] return is a bare array, not a record of
    success or error, and it has no [error] field. *)
Lemma sample_result_is_bare_array :
  (exists data,
     Js.settled
       (Facade.readHdf5DatasetSample "plan.p01.hdf" "/Results/2D/MaxWSE" (Some 3))
     = Js.Resolved data
     /\ JsValue.of_numbers data
        = JsValue.Array
            [JsValue.Number 10.5; JsValue.Number 11.2; JsValue.Number 9.8]
     /\ JsValue.has_property "error" (JsValue.of_numbers data) = false
     /\ forall properties, JsValue.of_numbers data <> JsValue.Object properties)
  /\ (exists paths,
        Js.settled (Facade.listHdf5Datasets "plan.p01.hdf") = Js.Resolved paths
        /\ JsValue.has_property "error" (JsValue.of_strings paths) = false
        /\ forall properties, JsValue.of_strings paths <> JsValue.Object properties).
Proof.
  split; eexists; (split; [reflexivity |]); repeat split; discriminate.
Qed.

(** C6, amended.  On every input each of the five facade operations
    resolves with its plain success value and logs nothing, so none throws:
    the records of [analyzeHdf5Info] and [analyzeHdf5Structure] come
    without their optional [error] field, the record of
    [extractHecRasData] has no such field, and [listHdf5Datasets] and
    [readHdf5DatasetSample] return bare arrays.  There is no result that
    reports an error: an exception in the body of an operation would be
    logged and thrown on to the caller. *)
Theorem facade_operations_resolve_plainly
    (now : Z) (filePath datasetPath : string) (maxElements : option Z) :
  Js.valid_time now ->
  (exists r, Facade.analyzeHdf5Info now filePath = Js.mkAsync [] (Js.Resolved r)
             /\ JsValue.has_property "error" (JsValue.of_info r) = false)
  /\ (exists s, Facade.analyzeHdf5Structure filePath = Js.mkAsync [] (Js.Resolved s)
                /\ JsValue.has_property "error" (JsValue.of_structure s) = false)
  /\ (exists d, Facade.extractHecRasData filePath = Js.mkAsync [] (Js.Resolved d)
                /\ JsValue.has_property "error" (JsValue.of_hecras d) = false)
  /\ (exists l, Facade.listHdf5Datasets filePath = Js.mkAsync [] (Js.Resolved l)
                /\ exists items, JsValue.of_strings l = JsValue.Array items)
  /\ (exists v, Facade.readHdf5DatasetSample filePath datasetPath maxElements
                = Js.mkAsync [] (Js.Resolved v)
                /\ exists items, JsValue.of_numbers v = JsValue.Array items)
  /\ (forall (A : Type) (label : string) (e : Js.JsError),
        Js.try_log_rethrow (A := A) label (Js.Rejected e)
        = Js.mkAsync [label ++ " " ++ Js.show_error e] (Js.Rejected e)).
Proof.
  intros Hnow. repeat split.
  - exists (info_record now filePath).
    split; [now apply analyzeHdf5Info_resolved | reflexivity].
  - eexists. split; reflexivity.
  - eexists. split; reflexivity.
  - eexists. split; [reflexivity |]. eexists. reflexivity.
  - eexists. split; [reflexivity |]. eexists. reflexivity.
Qed.

Lemma facade_operations_resolve_plainly_witness :
  Js.valid_time 1794787200123 /\
  ((exists r, Facade.analyzeHdf5Info 1794787200123 "plan.p01.hdf"
              = Js.mkAsync [] (Js.Resolved r)
              /\ JsValue.has_property "error" (JsValue.of_info r) = false)
   /\ (exists s, Facade.analyzeHdf5Structure "plan.p01.hdf"
                 = Js.mkAsync [] (Js.Resolved s)
                 /\ JsValue.has_property "error" (JsValue.of_structure s) = false)
   /\ (exists d, Facade.extractHecRasData "plan.p01.hdf"
                 = Js.mkAsync [] (Js.Resolved d)
                 /\ JsValue.has_property "error" (JsValue.of_hecras d) = false)
   /\ (exists l, Facade.listHdf5Datasets "plan.p01.hdf"
                 = Js.mkAsync [] (Js.Resolved l)
                 /\ exists items, JsValue.of_strings l = JsValue.Array items)
   /\ (exists v, Facade.readHdf5DatasetSample "plan.p01.hdf" "/Results/2D/MaxWSE" None
                 = Js.mkAsync [] (Js.Resolved v)
                 /\ exists items, JsValue.of_numbers v = JsValue.Array items)
   /\ (forall (A : Type) (label : string) (e : Js.JsError),
         Js.try_log_rethrow (A := A) label (Js.Rejected e)
         = Js.mkAsync [label ++ " " ++ Js.show_error e] (Js.Rejected e))).
Proof.
  assert (Hnow : Js.valid_time 1794787200123)
    by (unfold Js.valid_time, Js.maxTimeValue; lia).
  split; [exact Hnow |].
  exact (facade_operations_resolve_plainly
           1794787200123 "plan.p01.hdf" "/Results/2D/MaxWSE" None Hnow).
Defined.

(* ================================================================= *)
(** ** The calendar: a time value is determined by its ISO rendering *)

(** The year of the era found for a day of the era, and the day of that
    year (March-based), are in range. *)
Lemma year_of_era_bounds (doe : Z) :
  0 <= doe < 146097 ->
  let yoe := (doe - doe / 1460 + doe / 36524 - doe / 146096) / 365 in
  let doy := doe - (365 * yoe + yoe / 4 - yoe / 100) in
  0 <= yoe < 400 /\ 0 <= doy <= 365.
Proof.
  intros Hdoe yoe doy. subst doy yoe.
  Z.to_euclidean_division_equations; lia.
Qed.

(** The March-based month of a day of the year, and the day of the month. *)
Lemma month_of_year_bounds (doy : Z) :
  0 <= doy <= 365 ->
  let mp := (5 * doy + 2) / 153 in
  let d := doy - (153 * mp + 2) / 5 + 1 in
  0 <= mp <= 11 /\ 1 <= d <= 31.
Proof.
  intros Hdoy mp d. subst d mp.
  Z.to_euclidean_division_equations; lia.
Qed.

Lemma civil_of_doe_spec (doe y m d : Z) :
  0 <= doe < 146097 ->
  Js.civil_of_doe doe = (y, m, d) ->
  let yoe := y - (if m <=? 2 then 1 else 0) in
  0 <= yoe < 400 /\ 1 <= m <= 12 /\ 1 <= d <= 31 /\ Js.doe_of_civil yoe m d = doe.
Proof.
  intros Hdoe Heq.
  destruct (year_of_era_bounds doe Hdoe) as [Hyoe Hdoy].
  destruct (month_of_year_bounds _ Hdoy) as [Hmp Hd].
  unfold Js.civil_of_doe in Heq. cbv zeta in Hyoe, Hdoy, Hmp, Hd, Heq.
  set (yoe0 := (doe - doe / 1460 + doe / 36524 - doe / 146096) / 365) in *.
  set (doy := doe - (365 * yoe0 + yoe0 / 4 - yoe0 / 100)) in *.
  set (mp := (5 * doy + 2) / 153) in *.
  apply pair_equal_spec in Heq as [Heq <-].
  apply pair_equal_spec in Heq as [<- <-].
  cbv zeta. unfold Js.doe_of_civil.
  destruct (Z.ltb_spec mp 10) as [Hlt | Hge].
  - destruct (Z.leb_spec (mp + 3) 2) as [? | _]; [lia |].
    destruct (Z.ltb_spec 2 (mp + 3)) as [_ | ?]; [| lia].
    replace (mp + 3 - 3) with mp by ring.
    replace (yoe0 + 0 - 0) with yoe0 by ring.
    subst doy. lia.
  - destruct (Z.leb_spec (mp - 9) 2) as [_ | ?]; [| lia].
    destruct (Z.ltb_spec 2 (mp - 9)) as [? | _]; [lia |].
    replace (mp - 9 + 9) with mp by ring.
    replace (yoe0 + 1 - 1) with yoe0 by ring.
    subst doy. lia.
Qed.

Lemma days_from_civil_from_days (day : Z) :
  Js.days_from_civil (Js.civil_from_days day) = day.
Proof.
  unfold Js.civil_from_days.
  set (z := day + 719468).
  assert (Hr : 0 <= z mod 146097 < 146097) by (apply Z.mod_pos_bound; lia).
  destruct (Js.civil_of_doe (z mod 146097)) as [[y m] d] eqn:Heq.
  destruct (civil_of_doe_spec _ _ _ _ Hr Heq) as (Hyoe & _ & _ & Hback).
  unfold Js.days_from_civil.
  set (c := if m <=? 2 then 1 else 0) in *.
  replace (y + 400 * (z / 146097) - c) with ((y - c) + (z / 146097) * 400) by ring.
  rewrite Z.div_add, Z.mod_add by lia.
  rewrite (Z.div_small (y - c) 400), (Z.mod_small (y - c) 400) by lia.
  rewrite Hback.
  pose proof (Z.div_mod z 146097). subst z. lia.
Qed.

Lemma civil_from_days_inj (day1 day2 : Z) :
  Js.civil_from_days day1 = Js.civil_from_days day2 -> day1 = day2.
Proof.
  intros H. apply (f_equal Js.days_from_civil) in H.
  now rewrite !days_from_civil_from_days in H.
Qed.

Lemma civil_from_days_bounds (day y m d : Z) :
  Js.civil_from_days day = (y, m, d) ->
  1 <= m <= 12 /\ 1 <= d <= 31
  /\ 400 * ((day + 719468) / 146097) <= y <= 400 * ((day + 719468) / 146097) + 400.
Proof.
  unfold Js.civil_from_days.
  set (z := day + 719468).
  assert (Hr : 0 <= z mod 146097 < 146097) by (apply Z.mod_pos_bound; lia).
  destruct (Js.civil_of_doe (z mod 146097)) as [[y0 m0] d0] eqn:Heq.
  destruct (civil_of_doe_spec _ _ _ _ Hr Heq) as (Hyoe & Hm & Hd & _).
  intros H. apply pair_equal_spec in H as [H <-].
  apply pair_equal_spec in H as [<- <-]. subst z. cbv zeta in Hyoe.
  revert Hyoe. destruct (m0 <=? 2); lia.
Qed.

(** *** Strings of digits *)

Lemma string_length_app (a b : string) :
  String.length (a ++ b) = (String.length a + String.length b)%nat.
Proof. induction a as [| c a IH]; cbn; [reflexivity | now rewrite IH]. Qed.

Lemma string_app_inj (a b c d : string) :
  String.length a = String.length b -> a ++ c = b ++ d -> a = b /\ c = d.
Proof.
  revert b. induction a as [| x a IH]; intros [| y b] Hlen Heq;
    try discriminate Hlen.
  - now split.
  - cbn in Heq. injection Heq as -> Heq. injection Hlen as Hlen.
    destruct (IH b Hlen Heq) as [-> ->]. now split.
Qed.

Lemma string_cons_inj (x y : ascii) (a b : string) :
  String x a = String y b -> x = y /\ a = b.
Proof. intros H. now injection H. Qed.

Lemma pad_length (w : nat) (n : Z) : String.length (Js.pad w n) = w.
Proof.
  revert n. induction w as [| w IH]; intros n; cbn [Js.pad]; [reflexivity |].
  rewrite string_length_app, IH. cbn. lia.
Qed.

Lemma digit_inj (a b : Z) :
  0 <= a < 10 -> 0 <= b < 10 -> Js.digit a = Js.digit b -> a = b.
Proof.
  intros Ha Hb H. unfold Js.digit in H.
  apply (f_equal N_of_ascii) in H.
  rewrite !N_ascii_embedding in H by lia. lia.
Qed.

Lemma pad_inj (w : nat) :
  forall n m, 0 <= n < 10 ^ Z.of_nat w -> 0 <= m < 10 ^ Z.of_nat w ->
              Js.pad w n = Js.pad w m -> n = m.
Proof.
  induction w as [| w IH]; intros n m Hn Hm H.
  - cbn in Hn, Hm. lia.
  - rewrite Nat2Z.inj_succ, Z.pow_succ_r in Hn, Hm by lia.
    cbn [Js.pad] in H.
    apply string_app_inj in H as [Hhigh Hlow]; [| now rewrite !pad_length].
    injection Hlow as Hlow.
    apply digit_inj in Hlow; try (apply Z.mod_pos_bound; lia).
    apply IH in Hhigh;
      try (split; [apply Z.div_pos; lia | apply Z.div_lt_upper_bound; lia]).
    rewrite (Z.div_mod n 10), (Z.div_mod m 10) by lia. congruence.
Qed.

Lemma iso_year_length (y : Z) :
  String.length (Js.iso_year y)
  = if (0 <=? y) && (y <=? 9999) then 4%nat else 7%nat.
Proof.
  unfold Js.iso_year. destruct ((0 <=? y) && (y <=? 9999)).
  - apply pad_length.
  - rewrite string_length_app, pad_length. now destruct (y <? 0).
Qed.

Lemma iso_year_inj (y y' : Z) :
  - 10 ^ 6 < y < 10 ^ 6 -> - 10 ^ 6 < y' < 10 ^ 6 ->
  Js.iso_year y = Js.iso_year y' -> y = y'.
Proof.
  intros Hy Hy' H.
  pose proof (f_equal String.length H) as Hlen.
  rewrite !iso_year_length in Hlen.
  unfold Js.iso_year in H.
  destruct ((0 <=? y) && (y <=? 9999)) eqn:Hfour;
    destruct ((0 <=? y') && (y' <=? 9999)) eqn:Hfour'; try discriminate Hlen.
  - apply andb_prop in Hfour as [? ?], Hfour' as [? ?].
    apply (pad_inj 4) in H; [assumption | cbn; lia | cbn; lia].
  - destruct (Z.ltb_spec y 0), (Z.ltb_spec y' 0);
      cbn [append] in H; apply string_cons_inj in H as [Hsign H];
      try discriminate Hsign;
      apply (pad_inj 6) in H; try (cbn; lia); lia.
Qed.

(** The fields of the rendering of a valid time value are in range. *)
Lemma valid_time_fields (t y m d : Z) :
  Js.valid_time t ->
  Js.civil_from_days (t / Js.msPerDay) = (y, m, d) ->
  - 10 ^ 6 < y < 10 ^ 6 /\ 1 <= m <= 12 /\ 1 <= d <= 31.
Proof.
  unfold Js.valid_time, Js.maxTimeValue, Js.msPerDay. intros Ht Heq.
  destruct (civil_from_days_bounds _ _ _ _ Heq) as (Hm & Hd & Hy).
  repeat split; try lia.
  - assert (-100000000 <= t / 86400000) by (apply Z.div_le_lower_bound; lia).
    assert (-700 <= (t / 86400000 + 719468) / 146097)
      by (apply Z.div_le_lower_bound; lia).
    lia.
  - assert (t / 86400000 <= 100000000) by (apply Z.div_le_upper_bound; lia).
    assert ((t / 86400000 + 719468) / 146097 <= 700)
      by (apply Z.div_le_upper_bound; lia).
    lia.
Qed.

Ltac next_separator H :=
  cbn [append] in H; apply string_cons_inj in H as [_ H].

Ltac next_field H Hfield :=
  apply string_app_inj in H as [Hfield H]; [| now rewrite !pad_length].

Lemma iso_of_time_inj (t1 t2 : Z) :
  Js.valid_time t1 -> Js.valid_time t2 ->
  Js.iso_of_time t1 = Js.iso_of_time t2 -> t1 = t2.
Proof.
  intros Hv1 Hv2 H. unfold Js.iso_of_time in H.
  destruct (Js.civil_from_days (t1 / Js.msPerDay)) as [[y1 m1] d1] eqn:E1.
  destruct (Js.civil_from_days (t2 / Js.msPerDay)) as [[y2 m2] d2] eqn:E2.
  destruct (valid_time_fields _ _ _ _ Hv1 E1) as (Hy1 & Hm1 & Hd1).
  destruct (valid_time_fields _ _ _ _ Hv2 E2) as (Hy2 & Hm2 & Hd2).
  assert (Hms1 : 0 <= t1 mod Js.msPerDay < Js.msPerDay)
    by (apply Z.mod_pos_bound; reflexivity).
  assert (Hms2 : 0 <= t2 mod Js.msPerDay < Js.msPerDay)
    by (apply Z.mod_pos_bound; reflexivity).
  pose proof (Z.div_mod t1 Js.msPerDay) as Hsplit1.
  pose proof (Z.div_mod t2 Js.msPerDay) as Hsplit2.
  set (ms1 := t1 mod Js.msPerDay) in *. set (ms2 := t2 mod Js.msPerDay) in *.
  pose proof (f_equal String.length H) as Hlen.
  rewrite !string_length_app, !pad_length in Hlen.
  apply string_app_inj in H as [Hyear H]; [| cbn in Hlen; lia].
  clear Hlen.
  next_separator H. next_field H Hmonth.
  next_separator H. next_field H Hday.
  next_separator H. next_field H Hhour.
  next_separator H. next_field H Hmin.
  next_separator H. next_field H Hsec.
  next_separator H. next_field H Hmilli.
  apply iso_year_inj in Hyear; [| assumption | assumption].
  apply (pad_inj 2) in Hmonth; [| cbn; lia | cbn; lia].
  apply (pad_inj 2) in Hday; [| cbn; lia | cbn; lia].
  unfold Js.msPerDay in *.
  apply (pad_inj 2) in Hhour;
    [| cbn; split; [apply Z.div_pos; lia | apply Z.div_lt_upper_bound; lia] ..].
  apply (pad_inj 2) in Hmin;
    [| cbn; pose proof (Z.mod_pos_bound (ms1 / 60000) 60);
       pose proof (Z.mod_pos_bound (ms2 / 60000) 60); lia ..].
  apply (pad_inj 2) in Hsec;
    [| cbn; pose proof (Z.mod_pos_bound (ms1 / 1000) 60);
       pose proof (Z.mod_pos_bound (ms2 / 1000) 60); lia ..].
  apply (pad_inj 3) in Hmilli;
    [| cbn; pose proof (Z.mod_pos_bound ms1 1000);
       pose proof (Z.mod_pos_bound ms2 1000); lia ..].
  assert (Hdays : t1 / 86400000 = t2 / 86400000).
  { apply civil_from_days_inj. unfold Js.msPerDay in E1, E2. congruence. }
  assert (Hms : ms1 = ms2).
  { clear - Hhour Hmin Hsec Hmilli Hms1 Hms2.
    Z.to_euclidean_division_equations. lia. }
  lia.
Qed.

(* ================================================================= *)
(** ** Repeated invocations of the info operation *)

(** C3, as the specification states it, fails: two calls on the same path
    one millisecond apart return different records. *)
Lemma info_differs_when_clock_advances :
  Js.valid_time 1794787200123 /\ Js.valid_time 1794787200124
  /\ Js.settled (Facade.analyzeHdf5Info 1794787200123 "plan.p01.hdf")
     <> Js.settled (Facade.analyzeHdf5Info 1794787200124 "plan.p01.hdf").
Proof.
  split; [unfold Js.valid_time, Js.maxTimeValue; lia |].
  split; [unfold Js.valid_time, Js.maxTimeValue; lia |].
  vm_compute. discriminate.
Qed.

(** C3, amended.  Two invocations of [analyzeHdf5Info] on the same path
    resolve with records that agree on every field except [modified], which
    is the ISO rendering of the clock at the time of each call; the two
    records are equal exactly when the clock reads the same millisecond at
    both calls. *)
Theorem info_repeats_up_to_clock (filePath : string) (t1 t2 : Z) :
  Js.valid_time t1 -> Js.valid_time t2 ->
  exists r1 r2,
    Facade.analyzeHdf5Info t1 filePath = Js.mkAsync [] (Js.Resolved r1)
    /\ Facade.analyzeHdf5Info t2 filePath = Js.mkAsync [] (Js.Resolved r2)
    /\ RustFileInfo.name r1 = RustFileInfo.name r2
    /\ RustFileInfo.path r1 = RustFileInfo.path r2
    /\ RustFileInfo.size_mb r1 = RustFileInfo.size_mb r2
    /\ RustFileInfo.accessible r1 = RustFileInfo.accessible r2
    /\ RustFileInfo.groups_count r1 = RustFileInfo.groups_count r2
    /\ RustFileInfo.datasets_count r1 = RustFileInfo.datasets_count r2
    /\ RustFileInfo.error r1 = RustFileInfo.error r2
    /\ RustFileInfo.modified r1 = Js.iso_of_time t1
    /\ RustFileInfo.modified r2 = Js.iso_of_time t2
    /\ (r1 = r2 <-> t1 = t2).
Proof.
  intros Hv1 Hv2.
  exists (info_record t1 filePath), (info_record t2 filePath).
  split; [now apply analyzeHdf5Info_resolved |].
  split; [now apply analyzeHdf5Info_resolved |].
  repeat (split; [reflexivity |]).
  split.
  - intros Heq. apply (f_equal RustFileInfo.modified) in Heq.
    now apply iso_of_time_inj.
  - now intros ->.
Qed.

Lemma info_repeats_up_to_clock_witness :
  Js.valid_time 1794787200123 /\ Js.valid_time 1794787200124 /\
  exists r1 r2,
    Facade.analyzeHdf5Info 1794787200123 "plan.p01.hdf" = Js.mkAsync [] (Js.Resolved r1)
    /\ Facade.analyzeHdf5Info 1794787200124 "plan.p01.hdf" = Js.mkAsync [] (Js.Resolved r2)
    /\ RustFileInfo.name r1 = RustFileInfo.name r2
    /\ RustFileInfo.path r1 = RustFileInfo.path r2
    /\ RustFileInfo.size_mb r1 = RustFileInfo.size_mb r2
    /\ RustFileInfo.accessible r1 = RustFileInfo.accessible r2
    /\ RustFileInfo.groups_count r1 = RustFileInfo.groups_count r2
    /\ RustFileInfo.datasets_count r1 = RustFileInfo.datasets_count r2
    /\ RustFileInfo.error r1 = RustFileInfo.error r2
    /\ RustFileInfo.modified r1 = Js.iso_of_time 1794787200123
    /\ RustFileInfo.modified r2 = Js.iso_of_time 1794787200124
    /\ (r1 = r2 <-> 1794787200123 = 1794787200124).
Proof.
  assert (H1 : Js.valid_time 1794787200123) by (unfold Js.valid_time, Js.maxTimeValue; lia).
  assert (H2 : Js.valid_time 1794787200124) by (unfold Js.valid_time, Js.maxTimeValue; lia).
  split; [exact H1 |]. split; [exact H2 |].
  exact (info_repeats_up_to_clock "plan.p01.hdf" _ _ H1 H2).
Defined.

(* ================================================================= *)
(** ** The command-line front-end *)

Lemma exit_code_cases (r : Cli.Run unit) : Cli.exit_code r = 0 \/ Cli.exit_code r = 1.
Proof. destruct r as [tr [v | e]]; cbn; auto. Qed.

(** C8, as the specification states it, fails: the exit status is 0 for an
    unknown subcommand, for a subcommand without its file argument, for
    [sample] without its dataset argument and for no subcommand at all, even
    with a library in which every operation fails. *)
Lemma invalid_usage_exits_with_zero :
  (invalid_usage ["hdf5_analyzer"; "frobnicate"] = true
   /\ Process.exit_status
        (Process.start 64 Cli.failing
           [Process.Unicode "hdf5_analyzer"; Process.Unicode "frobnicate"]) = 0)
  /\ (invalid_usage ["hdf5_analyzer"; "info"] = true
      /\ Process.exit_status
           (Process.start 64 Cli.failing
              [Process.Unicode "hdf5_analyzer"; Process.Unicode "info"]) = 0)
  /\ (invalid_usage ["hdf5_analyzer"; "sample"; "plan.p01.hdf"] = true
      /\ Process.exit_status
           (Process.start 64 Cli.failing
              [Process.Unicode "hdf5_analyzer"; Process.Unicode "sample";
               Process.Unicode "plan.p01.hdf"]) = 0)
  /\ (invalid_usage ["hdf5_analyzer"] = true
      /\ Process.exit_status
           (Process.start 64 Cli.failing [Process.Unicode "hdf5_analyzer"]) = 0).
Proof. repeat split. Qed.

Section FrontEndProperties.
Variable usize_bits : N.
Variable lib : Cli.Analyzer.

Lemma print_usage_usage_only : usage_only Cli.print_usage.
Proof. repeat split. now left. Qed.

Lemma missing_file_usage_only : usage_only Cli.missing_file.
Proof. repeat split. right. now left. Qed.

Lemma complaint_usage_only (line : string) :
  usage_only (Cli.bind (Cli.emit (Cli.Eprintln line)) (fun _ => Cli.print_usage)).
Proof. repeat split. right. now left. Qed.

Lemma usage_only_follows (r : Cli.Run unit) :
  usage_only r -> exit_follows_library lib r.
Proof.
  intros (Hexit & Hcalls & _). unfold exit_follows_library.
  now rewrite Hexit, Hcalls.
Qed.

Lemma analyze_file_info_follows (p : string) :
  exit_follows_library lib (Cli.analyze_file_info lib p).
Proof.
  unfold exit_follows_library, Cli.analyze_file_info, Cli.call.
  destruct (Cli.get_file_info lib p) eqn:Hr; cbn; rewrite Hr; reflexivity.
Qed.

Lemma analyze_file_structure_follows (p : string) :
  exit_follows_library lib (Cli.analyze_file_structure lib p).
Proof.
  unfold exit_follows_library, Cli.analyze_file_structure, Cli.call.
  destruct (Cli.get_file_structure lib p) eqn:Hr; cbn; rewrite Hr; reflexivity.
Qed.

Lemma list_datasets_follows (p : string) :
  exit_follows_library lib (Cli.list_datasets_cmd lib p).
Proof.
  unfold exit_follows_library, Cli.list_datasets_cmd, Cli.call.
  destruct (Cli.list_datasets lib p) eqn:Hr; cbn; rewrite Hr; reflexivity.
Qed.

Lemma analyze_hecras_data_follows (p : string) :
  exit_follows_library lib (Cli.analyze_hecras_data lib p).
Proof.
  unfold exit_follows_library, Cli.analyze_hecras_data, Cli.call.
  destruct (Cli.extract_hecras_data lib p) eqn:Hr; cbn; rewrite Hr; reflexivity.
Qed.

Lemma read_dataset_sample_follows (p d : string) (n : N) :
  exit_follows_library lib (Cli.read_dataset_sample_cmd lib p d n).
Proof.
  unfold exit_follows_library, Cli.read_dataset_sample_cmd, Cli.call.
  destruct (Cli.read_dataset_sample lib p d n) eqn:Hr; cbn; rewrite Hr; reflexivity.
Qed.

Lemma main_follows_library (args : list string) :
  exit_follows_library lib (Cli.main usize_bits lib args).
Proof.
  pose proof print_usage_usage_only. pose proof missing_file_usage_only.
  pose proof complaint_usage_only.
  unfold Cli.main.
  repeat lazymatch goal with
         | |- exit_follows_library _ (if ?b then _ else _) => destruct b
         end;
    auto using usage_only_follows, analyze_file_info_follows,
      analyze_file_structure_follows, list_datasets_follows,
      analyze_hecras_data_follows, read_dataset_sample_follows.
Qed.

Lemma main_invalid_usage (args : list string) :
  invalid_usage args = true -> usage_only (Cli.main usize_bits lib args).
Proof.
  pose proof print_usage_usage_only. pose proof missing_file_usage_only.
  pose proof complaint_usage_only.
  destruct args as [| a0 [| command operands]]; [auto | auto |].
  unfold invalid_usage, Cli.main.
  cbn [List.length Nat.ltb Nat.leb Cli.arg nth].
  destruct (String.eqb command "info"); cbn [orb].
  { destruct operands; cbn [List.length Nat.ltb Nat.leb]; [auto | discriminate]. }
  destruct (String.eqb command "structure"); cbn [orb].
  { destruct operands; cbn [List.length Nat.ltb Nat.leb]; [auto | discriminate]. }
  destruct (String.eqb command "datasets"); cbn [orb].
  { destruct operands; cbn [List.length Nat.ltb Nat.leb]; [auto | discriminate]. }
  destruct (String.eqb command "hecras"); cbn [orb].
  { destruct operands; cbn [List.length Nat.ltb Nat.leb]; [auto | discriminate]. }
  destruct (String.eqb command "sample").
  { destruct operands as [| x1 [| x2 rest]]; cbn [List.length Nat.ltb Nat.leb];
      [auto | auto | discriminate]. }
  destruct (String.eqb command "help" || String.eqb command "--help"
            || String.eqb command "-h"); [discriminate | auto].
Qed.

(** What an invalid usage writes. *)
Lemma main_invalid_usage_report (args : list string) :
  invalid_usage args = true ->
  usage_report args (fst (Cli.main usize_bits lib args)).
Proof.
  destruct args as [| a0 [| command operands]]; [reflexivity | reflexivity |].
  unfold invalid_usage, Cli.main, usage_report.
  cbn [List.length Nat.ltb Nat.leb Cli.arg nth].
  destruct (String.eqb command "info"); cbn [orb].
  { destruct operands; cbn [List.length Nat.ltb Nat.leb];
      [intros _; eexists; reflexivity | discriminate]. }
  destruct (String.eqb command "structure"); cbn [orb].
  { destruct operands; cbn [List.length Nat.ltb Nat.leb];
      [intros _; eexists; reflexivity | discriminate]. }
  destruct (String.eqb command "datasets"); cbn [orb].
  { destruct operands; cbn [List.length Nat.ltb Nat.leb];
      [intros _; eexists; reflexivity | discriminate]. }
  destruct (String.eqb command "hecras"); cbn [orb].
  { destruct operands; cbn [List.length Nat.ltb Nat.leb];
      [intros _; eexists; reflexivity | discriminate]. }
  destruct (String.eqb command "sample").
  { destruct operands as [| x1 [| x2 rest]]; cbn [List.length Nat.ltb Nat.leb];
      [intros _; eexists; reflexivity | intros _; eexists; reflexivity
      | discriminate]. }
  destruct (String.eqb command "help" || String.eqb command "--help"
            || String.eqb command "-h"); [discriminate |].
  intros _. eexists. reflexivity.
Qed.

End FrontEndProperties.

Lemma collect_unicode (args : list string) :
  Process.collect (map Process.Unicode args) = Some args.
Proof. induction args as [| a args IH]; cbn; [reflexivity | now rewrite IH]. Qed.

(** C8, amended.  When an argument of the process is not valid Unicode the
    front-end panics while collecting its arguments: it calls nothing and
    the exit status is 101.  Otherwise it exits with 0 on success and also
    on every invalid usage, where it calls no operation of the library and
    writes the usage text, alone when there is no subcommand and after an
    error line for an unknown subcommand or a missing required argument;
    the exit status is then non-zero (1) exactly when the operation of the
    library it invoked returned an error. *)
Theorem program_exit_status
    (usize_bits : N) (lib : Cli.Analyzer) (argv : list Process.OsString) :
  match Process.collect argv with
  | None =>
      Process.start usize_bits lib argv = Process.Panicked
      /\ Process.exit_status (Process.start usize_bits lib argv) = 101
  | Some args =>
      Process.start usize_bits lib argv
      = Process.Returned (Cli.main usize_bits lib args)
      /\ Process.exit_status (Process.start usize_bits lib argv)
         = (if existsb (failed lib)
                 (Cli.invocations (fst (Cli.main usize_bits lib args)))
            then 1 else 0)
      /\ (invalid_usage args = true ->
          Process.exit_status (Process.start usize_bits lib argv) = 0
          /\ Cli.invocations (fst (Cli.main usize_bits lib args)) = []
          /\ usage_report args (fst (Cli.main usize_bits lib args)))
  end.
Proof.
  unfold Process.start.
  destruct (Process.collect argv) as [args |]; [| split; reflexivity].
  cbn [Process.exit_status].
  split; [reflexivity |]. split; [apply main_follows_library |].
  intros Hinvalid.
  destruct (main_invalid_usage usize_bits lib args Hinvalid) as (Hexit & Hcalls & _).
  split; [exact Hexit |]. split; [exact Hcalls |].
  now apply main_invalid_usage_report.
Qed.

Lemma program_exit_status_witness :
  invalid_usage ["hdf5_analyzer"; "structure"] = true
  /\ Process.exit_status
       (Process.start 64 Cli.failing
          [Process.Unicode "hdf5_analyzer"; Process.Unicode "structure"]) = 0
  /\ Cli.invocations (fst (Cli.main 64 Cli.failing ["hdf5_analyzer"; "structure"])) = []
  /\ usage_report ["hdf5_analyzer"; "structure"]
       (fst (Cli.main 64 Cli.failing ["hdf5_analyzer"; "structure"])).
Proof.
  assert (H : invalid_usage ["hdf5_analyzer"; "structure"] = true) by reflexivity.
  split; [exact H |].
  exact (proj2 (proj2 (program_exit_status 64 Cli.failing
                         [Process.Unicode "hdf5_analyzer"; Process.Unicode "structure"]))
           H).
Defined.

Lemma read_dataset_sample_invocations
    (lib : Cli.Analyzer) (file_path dataset_path : string) (n : N) :
  Cli.invocations (fst (Cli.read_dataset_sample_cmd lib file_path dataset_path n))
  = [Cli.ReadDatasetSample file_path dataset_path n].
Proof.
  unfold Cli.read_dataset_sample_cmd, Cli.call.
  now destruct (Cli.read_dataset_sample lib file_path dataset_path n).
Qed.

Lemma main_sample
    (usize_bits : N) (lib : Cli.Analyzer)
    (program file_path dataset_path : string) (rest : list string) :
  Cli.main usize_bits lib (program :: "sample" :: file_path :: dataset_path :: rest)
  = Cli.read_dataset_sample_cmd lib file_path dataset_path
      (match rest with
       | [] => 10%N
       | count :: _ => Cli.unwrap_or (Cli.parse_usize usize_bits count) 10
       end).
Proof. now destruct rest. Qed.

(** C10.  In the [sample] subcommand, when the element-count argument is
    absent or does not parse as an unsigned integer, the sample operation of
    the library is invoked with [max_elements = 10]. *)
Theorem sample_count_defaults_to_ten
    (usize_bits : N) (lib : Cli.Analyzer)
    (program file_path dataset_path : string) (rest : list string) :
  rest = []
  \/ (exists count more,
        rest = count :: more /\ Cli.parse_usize usize_bits count = None) ->
  Cli.invocations
    (fst (Cli.main usize_bits lib
            (program :: "sample" :: file_path :: dataset_path :: rest)))
  = [Cli.ReadDatasetSample file_path dataset_path 10].
Proof.
  intros Hcount. rewrite main_sample, read_dataset_sample_invocations.
  destruct Hcount as [-> | (count & more & -> & Hparse)].
  - reflexivity.
  - now rewrite Hparse.
Qed.

Lemma sample_count_defaults_to_ten_witness :
  (["ten"] = []
   \/ (exists count more,
         ["ten"] = count :: more /\ Cli.parse_usize 64 count = None))
  /\ Cli.invocations
       (fst (Cli.main 64 Cli.succeeding
               ["hdf5_analyzer"; "sample"; "plan.p01.hdf"; "/Results/2D/MaxWSE"; "ten"]))
     = [Cli.ReadDatasetSample "plan.p01.hdf" "/Results/2D/MaxWSE" 10].
Proof.
  assert (H : ["ten"] = []
              \/ (exists count more,
                    ["ten"] = count :: more /\ Cli.parse_usize 64 count = None)).
  { right. exists "ten", []. split; reflexivity. }
  split; [exact H |].
  exact (sample_count_defaults_to_ten 64 Cli.succeeding
           "hdf5_analyzer" "plan.p01.hdf" "/Results/2D/MaxWSE" ["ten"] H).
Defined.

(** When the count does parse, the parsed value is used. *)
Lemma sample_count_parsed
    (usize_bits : N) (lib : Cli.Analyzer)
    (program file_path dataset_path count : string) (more : list string) (n : N) :
  Cli.parse_usize usize_bits count = Some n ->
  Cli.invocations
    (fst (Cli.main usize_bits lib
            (program :: "sample" :: file_path :: dataset_path :: count :: more)))
  = [Cli.ReadDatasetSample file_path dataset_path n].
Proof.
  intros Hparse. rewrite main_sample, read_dataset_sample_invocations.
  now rewrite Hparse.
Qed.

(* ================================================================= *)
(** ** File names: extensions and the HDF and plan patterns *)

Section FileNames.
Import JsString.

(** The characters of a string. *)
Local Abbreviation chars := list_ascii_of_string.

Lemma chars_app (a b : string) : chars (a ++ b) = (chars a ++ chars b)%list.
Proof. induction a as [| x a IH]; cbn; [reflexivity | now rewrite IH]. Qed.

Lemma lastIndexOf_upper (s : string) (c : ascii) :
  -1 <= lastIndexOf s c < Z.of_nat (String.length s).
Proof.
  induction s as [| x s IH]; cbn [lastIndexOf String.length]; [lia |].
  destruct (Z.leb_spec 0 (lastIndexOf s c)); [lia |].
  destruct (Ascii.eqb x c); lia.
Qed.

Lemma lastIndexOf_absent (s : string) (c : ascii) :
  ~ In c (chars s) -> lastIndexOf s c = -1.
Proof.
  induction s as [| x s IH]; cbn [lastIndexOf chars]; intros Hnot; [reflexivity |].
  rewrite IH by (intros Hin; apply Hnot; now right).
  destruct (Ascii.eqb_spec x c) as [-> | _]; [| reflexivity].
  exfalso. apply Hnot. now left.
Qed.

Lemma lastIndexOf_last (a b : string) (c : ascii) :
  ~ In c (chars b) ->
  lastIndexOf (a ++ String c b) c = Z.of_nat (String.length a).
Proof.
  intros Hb. induction a as [| x a IH].
  - cbn [append lastIndexOf String.length].
    rewrite (lastIndexOf_absent b c Hb), Ascii.eqb_refl. reflexivity.
  - cbn [append lastIndexOf String.length]. rewrite IH.
    destruct (Z.leb_spec 0 (Z.of_nat (String.length a))); lia.
Qed.

(** A string in which [c] occurs splits at the last occurrence. *)
Lemma lastIndexOf_split (s : string) (c : ascii) :
  0 <= lastIndexOf s c ->
  exists a b, s = a ++ String c b /\ ~ In c (chars b)
              /\ lastIndexOf s c = Z.of_nat (String.length a).
Proof.
  induction s as [| x s IH]; cbn [lastIndexOf]; [lia |].
  destruct (Z.leb_spec 0 (lastIndexOf s c)) as [Hin | Hout].
  - intros _. destruct (IH Hin) as (a & b & -> & Hb & Hi).
    exists (String x a), b. repeat split; [assumption |].
    rewrite Hi. cbn [String.length]. lia.
  - destruct (Ascii.eqb_spec x c) as [-> | _]; [| lia].
    intros _. exists EmptyString, s. repeat split.
    intros Hc. pose proof (lastIndexOf_upper s c).
    assert (Habs : lastIndexOf s c = -1) by lia.
    clear - Hc Habs. induction s as [| y s IH]; [contradiction |].
    cbn [lastIndexOf] in Habs.
    destruct (Z.leb_spec 0 (lastIndexOf s c)) as [H0 | H0].
    + pose proof (lastIndexOf_upper s c). lia.
    + destruct (Ascii.eqb_spec y c) as [-> | Hne]; [lia |].
      destruct Hc as [Hc | Hc]; [congruence |].
      apply IH; [assumption |]. pose proof (lastIndexOf_upper s c). lia.
Qed.

Lemma skip_app (a b : string) : skip (String.length a) (a ++ b) = b.
Proof. induction a as [| x a IH]; [now destruct b | exact IH]. Qed.

Lemma skip_all (n : nat) (s : string) :
  (String.length s <= n)%nat -> skip n s = EmptyString.
Proof.
  revert s. induction n as [| n IH]; intros [| x s] Hlen; cbn in *;
    try reflexivity; try lia.
  apply IH. lia.
Qed.

(** When the last dot is the first character, or there is no dot, the
    extension is empty. *)
Lemma getFileExtension_no_stem (filename : string) :
  Z.of_nat (String.length filename) <= 2 ^ 32 ->
  lastIndexOf filename "." <= 0 ->
  Utils.getFileExtension filename = "".
Proof.
  intros Hlen Hi. pose proof (lastIndexOf_upper filename ".") as Hrange.
  unfold Utils.getFileExtension, slice_from, toUint32.
  assert (Hstart : Z.of_nat (String.length filename)
                   <= (lastIndexOf filename "." - 1) mod 2 ^ 32 + 2).
  { assert (Hcases : lastIndexOf filename "." = -1 \/ lastIndexOf filename "." = 0)
      by lia.
    destruct Hcases as [-> | ->]; cbn; lia. }
  destruct (Z.ltb_spec ((lastIndexOf filename "." - 1) mod 2 ^ 32 + 2) 0); [lia |].
  rewrite Z.min_r by lia. apply skip_all. lia.
Qed.

(** Behind a non-empty stem, the extension is what follows the last dot. *)
Lemma getFileExtension_split (stem ext : string) :
  stem <> "" ->
  ~ In "."%char (chars ext) ->
  Z.of_nat (String.length (stem ++ String "." ext)) <= 2 ^ 32 ->
  Utils.getFileExtension (stem ++ String "." ext) = ext.
Proof.
  intros Hstem Hext Hlen.
  unfold Utils.getFileExtension, slice_from, toUint32.
  rewrite lastIndexOf_last by assumption.
  rewrite string_length_app in *. cbn [String.length] in *.
  assert (Hpos : (0 < String.length stem)%nat)
    by (destruct stem; [congruence | cbn; lia]).
  rewrite Z.mod_small by lia.
  destruct (Z.ltb_spec (Z.of_nat (String.length stem) - 1 + 2) 0); [lia |].
  rewrite Z.min_l by lia.
  replace (Z.to_nat (Z.of_nat (String.length stem) - 1 + 2))
    with (String.length (stem ++ ".")).
  - replace (stem ++ String "." ext) with ((stem ++ ".") ++ ext).
    + apply skip_app.
    + clear. induction stem as [| x s IH]; cbn; [reflexivity | now rewrite IH].
  - rewrite string_length_app. cbn. lia.
Qed.


(** The file name [stem.ext]: behind a non-empty stem, the extension is the
    text after the last dot. *)
Theorem getFileExtension_after_last_dot (stem ext : string) :
  stem <> "" ->
  ~ In "."%char (chars ext) ->
  Z.of_nat (String.length (stem ++ "." ++ ext)) <= 2 ^ 32 ->
  Utils.getFileExtension (stem ++ "." ++ ext) = ext.
Proof. exact (getFileExtension_split stem ext). Qed.

Lemma getFileExtension_after_last_dot_witness :
  "geom.g01" <> "" /\ ~ In "."%char (chars "hdf")
  /\ Z.of_nat (String.length ("geom.g01" ++ "." ++ "hdf")) <= 2 ^ 32
  /\ Utils.getFileExtension ("geom.g01" ++ "." ++ "hdf") = "hdf".
Proof.
  assert (H1 : "geom.g01" <> "") by discriminate.
  assert (H2 : ~ In "."%char (chars "hdf"))
    by (cbn; intros [H | [H | [H | []]]]; discriminate H).
  assert (H3 : Z.of_nat (String.length ("geom.g01" ++ "." ++ "hdf")) <= 2 ^ 32)
    by (cbn; lia).
  split; [exact H1 |]. split; [exact H2 |]. split; [exact H3 |].
  exact (getFileExtension_after_last_dot "geom.g01" "hdf" H1 H2 H3).
Defined.

(** A name without a dot, and a name whose only dot is its first character
    (a dot file), have the empty extension. *)
Theorem getFileExtension_without_stem (filename : string) :
  Z.of_nat (String.length filename) <= 2 ^ 32 ->
  ~ In "."%char (chars filename)
  \/ (exists rest, filename = "." ++ rest /\ ~ In "."%char (chars rest)) ->
  Utils.getFileExtension filename = "".
Proof.
  intros Hlen Hshape. apply getFileExtension_no_stem; [assumption |].
  destruct Hshape as [Hnone | (rest & -> & Hrest)].
  - rewrite lastIndexOf_absent by assumption. lia.
  - change ("." ++ rest) with ("" ++ String "." rest).
    rewrite lastIndexOf_last by assumption. cbn. lia.
Qed.

Lemma getFileExtension_without_stem_witness :
  Z.of_nat (String.length ".hdf") <= 2 ^ 32
  /\ (~ In "."%char (chars ".hdf")
      \/ (exists rest, ".hdf" = "." ++ rest /\ ~ In "."%char (chars rest)))
  /\ Utils.getFileExtension ".hdf" = "".
Proof.
  assert (H1 : Z.of_nat (String.length ".hdf") <= 2 ^ 32) by (cbn; lia).
  assert (H2 : ~ In "."%char (chars ".hdf")
               \/ (exists rest, ".hdf" = "." ++ rest /\ ~ In "."%char (chars rest))).
  { right. exists "hdf". split; [reflexivity |].
    cbn; intros [H | [H | [H | []]]]; discriminate H. }
  split; [exact H1 |]. split; [exact H2 |].
  exact (getFileExtension_without_stem ".hdf" H1 H2).
Defined.

(** Whatever the name, the extension is the end of the name and contains
    no dot. *)
Theorem getFileExtension_suffix (filename : string) :
  Z.of_nat (String.length filename) <= 2 ^ 32 ->
  (exists front, filename = front ++ Utils.getFileExtension filename)
  /\ ~ In "."%char (chars (Utils.getFileExtension filename)).
Proof.
  intros Hlen.
  destruct (Z.leb_spec (lastIndexOf filename ".") 0) as [Hno | Hyes].
  - rewrite getFileExtension_no_stem by assumption. split.
    + exists filename. clear. induction filename as [| x s IH]; cbn; congruence.
    + intros [].
  - assert (Hfound : 0 <= lastIndexOf filename ".") by lia.
    destruct (lastIndexOf_split filename "." Hfound) as (a & b & -> & Hb & Hi).
    rewrite Hi in Hyes.
    assert (Hstem : a <> "") by (intros ->; cbn in Hyes; lia).
    rewrite getFileExtension_split by assumption. split; [| assumption].
    exists (a ++ "."). clear. induction a as [| x a IH]; cbn; congruence.
Qed.

Lemma getFileExtension_suffix_witness :
  Z.of_nat (String.length "archive.tar.gz") <= 2 ^ 32
  /\ (exists front, "archive.tar.gz" = front ++ Utils.getFileExtension "archive.tar.gz")
  /\ ~ In "."%char (chars (Utils.getFileExtension "archive.tar.gz")).
Proof.
  assert (H : Z.of_nat (String.length "archive.tar.gz") <= 2 ^ 32) by (cbn; lia).
  split; [exact H |]. exact (getFileExtension_suffix "archive.tar.gz" H).
Defined.

Lemma isHdfFile_extension (filename : string) :
  Utils.isHdfFile filename = true
  <-> In (toLowerCase (Utils.getFileExtension filename)) hdf_extensions.
Proof.
  unfold Utils.isHdfFile, hdf_extensions. cbv zeta.
  rewrite !orb_true_iff, !String.eqb_eq. cbn [In].
  intuition congruence.
Qed.

Lemma isHdfFile_shape (filename : string) :
  Z.of_nat (String.length filename) <= 2 ^ 32 ->
  Utils.isHdfFile filename = true
  <-> exists stem ext,
        filename = stem ++ "." ++ ext /\ stem <> ""
        /\ ~ In "."%char (chars ext)
        /\ In (toLowerCase ext) hdf_extensions.
Proof.
  intros Hlen. rewrite isHdfFile_extension. split.
  - intros Hext.
    destruct (Z.leb_spec (lastIndexOf filename ".") 0) as [Hno | Hyes].
    + rewrite getFileExtension_no_stem in Hext by assumption.
      cbn in Hext. intuition discriminate.
    + assert (Hfound : 0 <= lastIndexOf filename ".") by lia.
      destruct (lastIndexOf_split filename "." Hfound) as (a & b & -> & Hb & Hi).
      rewrite Hi in Hyes.
      assert (Hstem : a <> "") by (intros ->; cbn in Hyes; lia).
      exists a, b. rewrite getFileExtension_split in Hext by assumption.
      repeat split; assumption.
  - intros (stem & ext & -> & Hstem & Hdot & Hext).
    change (stem ++ "." ++ ext) with (stem ++ String "." ext) in *.
    now rewrite getFileExtension_split.
Qed.

(** [isHdfFile] accepts exactly the names [stem.ext] with a non-empty stem
    and an extension without dot that is, up to the case of its letters,
    one of [hdf], [hdf5], [h5]. *)
Theorem isHdfFile_iff (filename : string) :
  Z.of_nat (String.length filename) <= 2 ^ 32 ->
  Utils.isHdfFile filename = true
  <-> exists stem ext,
        filename = stem ++ "." ++ ext /\ stem <> ""
        /\ ~ In "."%char (chars ext)
        /\ In (toLowerCase ext) hdf_extensions.
Proof. exact (isHdfFile_shape filename). Qed.

Lemma isHdfFile_iff_witness :
  Z.of_nat (String.length "plan.p01.HDF") <= 2 ^ 32
  /\ (Utils.isHdfFile "plan.p01.HDF" = true
      <-> exists stem ext,
            "plan.p01.HDF" = stem ++ "." ++ ext /\ stem <> ""
            /\ ~ In "."%char (chars ext)
            /\ In (toLowerCase ext) hdf_extensions).
Proof.
  assert (H1 : Z.of_nat (String.length "plan.p01.HDF") <= 2 ^ 32) by (cbn; lia).
  split; [exact H1 |]. exact (isHdfFile_iff "plan.p01.HDF" H1).
Defined.

Lemma lower_char_is_p (c : ascii) :
  lower_char c = "p"%char <-> c = "p"%char \/ c = "P"%char.
Proof.
  destruct c as [[] [] [] [] [] [] [] []]; cbn;
    (split; [intros H; try discriminate H; auto | intros [H | H]; discriminate H || reflexivity]).
Qed.

Lemma startsWith_empty (s : string) : startsWith s "" = true.
Proof. now destruct s. Qed.

Lemma startsWith_lower_p (filename : string) :
  startsWith (toLowerCase filename) "p" = true
  <-> exists c rest, filename = String c rest /\ (c = "p"%char \/ c = "P"%char).
Proof.
  destruct filename as [| c rest]; cbn [toLowerCase startsWith].
  - split; [discriminate | intros (c & rest & H & _); discriminate H].
  - rewrite startsWith_empty, andb_true_r, Ascii.eqb_eq. split.
    + intros H. exists c, rest. split; [reflexivity |].
      now apply lower_char_is_p.
    + intros (c' & rest' & [= <- <-] & H). symmetry. now apply lower_char_is_p.
Qed.

(** [isPlanFile] accepts exactly the names that [isHdfFile] accepts and
    that begin with [p] or [P]: a first letter [p] or [P], any text, a dot,
    and one of the extensions [hdf], [hdf5], [h5] in any letter case. *)
Theorem isPlanFile_iff (filename : string) :
  Z.of_nat (String.length filename) <= 2 ^ 32 ->
  Utils.isPlanFile filename = true
  <-> exists c middle ext,
        filename = String c (middle ++ "." ++ ext)
        /\ (c = "p"%char \/ c = "P"%char)
        /\ ~ In "."%char (chars ext)
        /\ In (toLowerCase ext) hdf_extensions.
Proof.
  intros Hlen. unfold Utils.isPlanFile. cbv zeta.
  rewrite andb_true_iff, startsWith_lower_p, (isHdfFile_shape filename Hlen).
  split.
  - intros [(c & rest & -> & Hc) (stem & ext & Heq & Hstem & Hdot & Hext)].
    destruct stem as [| c' middle]; [congruence |].
    cbn in Heq. injection Heq as <- ->.
    now exists c, middle, ext.
  - intros (c & middle & ext & -> & Hc & Hdot & Hext). split.
    + now exists c, (middle ++ "." ++ ext).
    + exists (String c middle), ext. repeat split; try assumption. discriminate.
Qed.

Lemma isPlanFile_iff_witness :
  Z.of_nat (String.length "P01.h5") <= 2 ^ 32
  /\ (Utils.isPlanFile "P01.h5" = true
      <-> exists c middle ext,
            "P01.h5" = String c (middle ++ "." ++ ext)
            /\ (c = "p"%char \/ c = "P"%char)
            /\ ~ In "."%char (chars ext)
            /\ In (toLowerCase ext) hdf_extensions).
Proof.
  assert (H1 : Z.of_nat (String.length "P01.h5") <= 2 ^ 32) by (cbn; lia).
  split; [exact H1 |]. exact (isPlanFile_iff "P01.h5" H1).
Defined.

(** *** The case of the letters *)

Lemma lower_char_dot (x : ascii) :
  Ascii.eqb (lower_char x) "." = Ascii.eqb x ".".
Proof. destruct x as [[] [] [] [] [] [] [] []]; reflexivity. Qed.

Lemma lastIndexOf_lower (s : string) :
  lastIndexOf (toLowerCase s) "." = lastIndexOf s ".".
Proof.
  induction s as [| x s IH]; [reflexivity |].
  cbn [toLowerCase lastIndexOf]. now rewrite IH, lower_char_dot.
Qed.

Lemma length_lower (s : string) :
  String.length (toLowerCase s) = String.length s.
Proof. induction s as [| x s IH]; cbn; congruence. Qed.

Lemma skip_lower (n : nat) (s : string) :
  skip n (toLowerCase s) = toLowerCase (skip n s).
Proof.
  revert s. induction n as [| n IH]; intros [| x s]; cbn; try reflexivity.
  apply IH.
Qed.

Lemma getFileExtension_lower (filename : string) :
  Utils.getFileExtension (toLowerCase filename)
  = toLowerCase (Utils.getFileExtension filename).
Proof.
  unfold Utils.getFileExtension, slice_from.
  now rewrite lastIndexOf_lower, length_lower, skip_lower.
Qed.

Lemma toLowerCase_chars (s : string) :
  toLowerCase s = string_of_list_ascii (map lower_char (chars s)).
Proof. induction s as [| x s IH]; cbn; [reflexivity | now rewrite IH]. Qed.

(** [isHdfFile] and [isPlanFile] do not look at the case of the letters
    A..Z: two names that differ at most in the case of these letters are
    classified alike by both. *)
Theorem hdf_patterns_ignore_ascii_case (filename1 filename2 : string) :
  same_but_ascii_case filename1 filename2 ->
  Utils.isHdfFile filename1 = Utils.isHdfFile filename2
  /\ Utils.isPlanFile filename1 = Utils.isPlanFile filename2.
Proof.
  intros Hsame.
  assert (Hlower : toLowerCase filename1 = toLowerCase filename2)
    by (rewrite !toLowerCase_chars; now rewrite Hsame).
  assert (Hhdf : Utils.isHdfFile filename1 = Utils.isHdfFile filename2).
  { unfold Utils.isHdfFile.
    now rewrite <- !getFileExtension_lower, Hlower. }
  split; [exact Hhdf |].
  unfold Utils.isPlanFile. now rewrite Hhdf, Hlower.
Qed.

Lemma hdf_patterns_ignore_ascii_case_witness :
  same_but_ascii_case "Plan.P01.HDF" "plan.p01.hdf"
  /\ Utils.isHdfFile "Plan.P01.HDF" = Utils.isHdfFile "plan.p01.hdf"
  /\ Utils.isPlanFile "Plan.P01.HDF" = Utils.isPlanFile "plan.p01.hdf".
Proof.
  assert (H : same_but_ascii_case "Plan.P01.HDF" "plan.p01.hdf") by reflexivity.
  split; [exact H |]. exact (hdf_patterns_ignore_ascii_case _ _ H).
Defined.

End FileNames.

(* ================================================================= *)
(** ** Valid paths *)

Section ValidPaths.
Import JsString.

Lemma test_class_app (class : list ascii) (a b : string) :
  test_class class (a ++ b) = test_class class a || test_class class b.
Proof.
  induction a as [| x a IH]; cbn [append test_class]; [reflexivity |].
  now rewrite IH, orb_assoc.
Qed.

Lemma existsb_eqb_in (c : ascii) (class : list ascii) :
  In c class -> existsb (Ascii.eqb c) class = true.
Proof.
  intros Hin. apply existsb_exists. exists c. split; [assumption |].
  apply Ascii.eqb_refl.
Qed.

Lemma isValidPath_unfold (path : string) :
  path <> "" ->
  Utils.isValidPath path = negb (test_class Utils.invalidChars path).
Proof.
  intros Hne. unfold Utils.isValidPath.
  destruct path as [| c rest]; [congruence |].
  cbn [String.eqb String.length Nat.ltb Nat.leb]. now rewrite andb_true_r.
Qed.

(** A path in which one of the characters [<], [>], [:], the double quote,
    [|], [?] or [*] occurs anywhere is not valid; in particular no path
    with a drive letter, as [C:\data\plan.hdf], is. *)
Theorem isValidPath_rejects_reserved (before after : string) (c : ascii) :
  In c Utils.invalidChars ->
  Utils.isValidPath (before ++ String c after) = false.
Proof.
  intros Hc. rewrite isValidPath_unfold by (destruct before; discriminate).
  rewrite test_class_app. cbn [test_class].
  rewrite (existsb_eqb_in c _ Hc). cbn. now rewrite orb_true_r.
Qed.

Lemma isValidPath_rejects_reserved_witness :
  In ":"%char Utils.invalidChars
  /\ Utils.isValidPath ("C" ++ String ":" "\data\plan.p01.hdf") = false.
Proof.
  assert (H : In ":"%char Utils.invalidChars) by (cbn; auto).
  split; [exact H |].
  exact (isValidPath_rejects_reserved "C" "\data\plan.p01.hdf" ":" H).
Defined.

(** Joining two non-empty strings gives a valid path exactly when both are
    valid paths; the empty string is not a valid path. *)
Theorem isValidPath_app (a b : string) :
  a <> "" -> b <> "" ->
  Utils.isValidPath (a ++ b) = Utils.isValidPath a && Utils.isValidPath b.
Proof.
  intros Ha Hb.
  rewrite !isValidPath_unfold; try assumption.
  - now rewrite test_class_app, negb_orb.
  - destruct a; [congruence | discriminate].
Qed.

Lemma isValidPath_app_witness :
  "/data/project" <> "" /\ "/plan.p01.hdf" <> ""
  /\ Utils.isValidPath ("/data/project" ++ "/plan.p01.hdf")
     = Utils.isValidPath "/data/project" && Utils.isValidPath "/plan.p01.hdf".
Proof.
  assert (Ha : "/data/project" <> "") by discriminate.
  assert (Hb : "/plan.p01.hdf" <> "") by discriminate.
  split; [exact Ha |]. split; [exact Hb |].
  exact (isValidPath_app _ _ Ha Hb).
Defined.

End ValidPaths.

(* ================================================================= *)
(** ** The name reported by the info operation *)

Section InfoName.
Local Abbreviation chars := list_ascii_of_string.

Lemma split_not_nil (sep : ascii) (s : string) : Js.split sep s <> [].
Proof.
  induction s as [| x s IH]; cbn [Js.split]; [discriminate |].
  destruct (Ascii.eqb x sep); [discriminate |].
  destruct (Js.split sep s); [contradiction | discriminate].
Qed.

Lemma split_without_separator (sep : ascii) (s : string) :
  ~ In sep (chars s) -> Js.split sep s = [s].
Proof.
  induction s as [| x s IH]; cbn [Js.split chars]; intros Hnot; [reflexivity |].
  destruct (Ascii.eqb_spec x sep) as [-> | _].
  - exfalso. apply Hnot. now left.
  - rewrite IH by (intros Hin; apply Hnot; now right). reflexivity.
Qed.

Lemma pop_cons (x : string) (l : list string) :
  l <> [] -> Js.pop (x :: l) = Js.pop l.
Proof. destruct l; [congruence | reflexivity]. Qed.

(** Two segments at least when the separator occurs. *)
Lemma split_with_separator (sep : ascii) (a b : string) :
  exists seg segs, Js.split sep (a ++ String sep b) = seg :: segs /\ segs <> [].
Proof.
  induction a as [| x a (seg & segs & IH & Hne)]; cbn [append Js.split].
  - rewrite Ascii.eqb_refl. exists EmptyString, (Js.split sep b).
    split; [reflexivity | apply split_not_nil].
  - destruct (Ascii.eqb x sep).
    + exists EmptyString, (Js.split sep (a ++ String sep b)).
      split; [reflexivity | apply split_not_nil].
    + rewrite IH. now exists (String x seg), segs.
Qed.

(** The last segment of a string is the last segment of what follows any
    of its separators. *)
Lemma pop_split_app (sep : ascii) (a b : string) :
  Js.pop (Js.split sep (a ++ String sep b)) = Js.pop (Js.split sep b).
Proof.
  induction a as [| x a IH]; cbn [append Js.split].
  - rewrite Ascii.eqb_refl. apply pop_cons, split_not_nil.
  - destruct (Ascii.eqb x sep).
    + rewrite pop_cons by apply split_not_nil. exact IH.
    + destruct (split_with_separator sep a b) as (seg & segs & Heq & Hne).
      rewrite Heq in *. rewrite pop_cons by assumption.
      now rewrite pop_cons in IH by assumption.
Qed.

Lemma or_literal_not_empty (v : option string) (lit : string) :
  lit <> "" -> Js.or_literal v lit <> "".
Proof. destruct v as [[| c s] |]; cbn; intros H; try assumption. discriminate. Qed.

(** The [name] that [analyzeHdf5Info] reports is never the empty string,
    whatever the path, the empty one included. *)
Theorem info_name_not_empty (now : Z) (filePath : string) :
  Js.valid_time now ->
  exists r,
    Facade.analyzeHdf5Info now filePath = Js.mkAsync [] (Js.Resolved r)
    /\ RustFileInfo.name r <> "".
Proof.
  intros Hnow. exists (info_record now filePath).
  split; [now apply analyzeHdf5Info_resolved |].
  cbn [info_record RustFileInfo.name]. apply or_literal_not_empty. discriminate.
Qed.

Lemma info_name_not_empty_witness :
  Js.valid_time 0 /\
  exists r,
    Facade.analyzeHdf5Info 0 "" = Js.mkAsync [] (Js.Resolved r)
    /\ RustFileInfo.name r <> "".
Proof.
  assert (H : Js.valid_time 0) by (unfold Js.valid_time, Js.maxTimeValue; lia).
  split; [exact H |]. exact (info_name_not_empty 0 "" H).
Defined.

(** For a path [dir/base] whose last component [base] is not empty, the
    reported [name] is [base]. *)
Theorem info_name_after_last_slash (now : Z) (dir base : string) :
  Js.valid_time now ->
  base <> "" ->
  ~ In "/"%char (chars base) ->
  exists r,
    Facade.analyzeHdf5Info now (dir ++ "/" ++ base) = Js.mkAsync [] (Js.Resolved r)
    /\ RustFileInfo.name r = base.
Proof.
  intros Hnow Hbase Hslash. exists (info_record now (dir ++ "/" ++ base)).
  split; [now apply analyzeHdf5Info_resolved |].
  cbn [info_record RustFileInfo.name].
  change (dir ++ "/" ++ base) with (dir ++ String "/" base).
  rewrite pop_split_app, split_without_separator by assumption.
  destruct base; [congruence | reflexivity].
Qed.

Lemma info_name_after_last_slash_witness :
  Js.valid_time 0 /\ "plan.p01.hdf" <> "" /\ ~ In "/"%char (chars "plan.p01.hdf")
  /\ exists r,
       Facade.analyzeHdf5Info 0 ("/data/project" ++ "/" ++ "plan.p01.hdf")
       = Js.mkAsync [] (Js.Resolved r)
       /\ RustFileInfo.name r = "plan.p01.hdf".
Proof.
  assert (H1 : Js.valid_time 0) by (unfold Js.valid_time, Js.maxTimeValue; lia).
  assert (H2 : "plan.p01.hdf" <> "") by discriminate.
  assert (H3 : ~ In "/"%char (chars "plan.p01.hdf")).
  { intros H. cbn in H.
    repeat (destruct H as [H | H]; [discriminate H |]). exact H. }
  split; [exact H1 |]. split; [exact H2 |]. split; [exact H3 |].
  exact (info_name_after_last_slash 0 "/data/project" "plan.p01.hdf" H1 H2 H3).
Defined.

(** For a non-empty path without [/], the reported [name] is the whole
    path: the components of a path written with backslashes only are not
    separated. *)
Theorem info_name_without_slash (now : Z) (filePath : string) :
  Js.valid_time now ->
  filePath <> "" ->
  ~ In "/"%char (chars filePath) ->
  exists r,
    Facade.analyzeHdf5Info now filePath = Js.mkAsync [] (Js.Resolved r)
    /\ RustFileInfo.name r = filePath.
Proof.
  intros Hnow Hne Hslash. exists (info_record now filePath).
  split; [now apply analyzeHdf5Info_resolved |].
  cbn [info_record RustFileInfo.name].
  rewrite (split_without_separator "/") by assumption.
  destruct filePath; [congruence | reflexivity].
Qed.

Lemma info_name_without_slash_witness :
  Js.valid_time 0 /\ "C:\data\plan.p01.hdf" <> ""
  /\ ~ In "/"%char (chars "C:\data\plan.p01.hdf")
  /\ exists r,
       Facade.analyzeHdf5Info 0 "C:\data\plan.p01.hdf" = Js.mkAsync [] (Js.Resolved r)
       /\ RustFileInfo.name r = "C:\data\plan.p01.hdf".
Proof.
  assert (H1 : Js.valid_time 0) by (unfold Js.valid_time, Js.maxTimeValue; lia).
  assert (H2 : "C:\data\plan.p01.hdf" <> "") by discriminate.
  assert (H3 : ~ In "/"%char (chars "C:\data\plan.p01.hdf")).
  { intros H. cbn in H.
    repeat (destruct H as [H | H]; [discriminate H |]). exact H. }
  split; [exact H1 |]. split; [exact H2 |]. split; [exact H3 |].
  exact (info_name_without_slash 0 "C:\data\plan.p01.hdf" H1 H2 H3).
Defined.

(** For a path that ends in [/] and contains no backslash, as a folder
    path does, the last component is empty and the reported [name] is the
    whole path. *)
Theorem info_name_trailing_slash (now : Z) (dir : string) :
  Js.valid_time now ->
  ~ In Js.backslash (chars dir) ->
  exists r,
    Facade.analyzeHdf5Info now (dir ++ "/") = Js.mkAsync [] (Js.Resolved r)
    /\ RustFileInfo.name r = dir ++ "/".
Proof.
  intros Hnow Hback. exists (info_record now (dir ++ "/")).
  split; [now apply analyzeHdf5Info_resolved |].
  cbn [info_record RustFileInfo.name].
  rewrite (pop_split_app "/" dir ""). cbn [Js.split Js.pop Js.or_else Js.truthy].
  rewrite (split_without_separator Js.backslash).
  - cbn [Js.pop Js.or_literal]. destruct dir; reflexivity.
  - rewrite chars_app. intros Hin. apply in_app_or in Hin as [Hin | Hin].
    + contradiction.
    + cbn in Hin. destruct Hin as [Hin | []]. discriminate Hin.
Qed.

Lemma info_name_trailing_slash_witness :
  Js.valid_time 0 /\ ~ In Js.backslash (chars "/data/project")
  /\ exists r,
       Facade.analyzeHdf5Info 0 ("/data/project" ++ "/")
       = Js.mkAsync [] (Js.Resolved r)
       /\ RustFileInfo.name r = "/data/project" ++ "/".
Proof.
  assert (H1 : Js.valid_time 0) by (unfold Js.valid_time, Js.maxTimeValue; lia).
  assert (H2 : ~ In Js.backslash (chars "/data/project")).
  { intros H. cbn in H.
    repeat (destruct H as [H | H]; [discriminate H |]). exact H. }
  split; [exact H1 |]. split; [exact H2 |].
  exact (info_name_trailing_slash 0 "/data/project" H1 H2).
Defined.

End InfoName.

(* ================================================================= *)
(** ** Sampling with a negative count *)

(** With a negative count [N], [readHdf5DatasetSample] drops the last [-N]
    elements of the data: it returns the first [10 + N] elements, nothing
    when [N <= -10]. *)
Theorem sample_negative_count (filePath datasetPath : string) (N : Z) :
  N < 0 ->
  Facade.readHdf5DatasetSample filePath datasetPath (Some N)
  = Js.mkAsync [] (Js.Resolved (firstn (Z.to_nat (10 + N)) Facade.mockData)).
Proof.
  intros HN. unfold Facade.readHdf5DatasetSample, Js.slice0.
  rewrite try_log_rethrow_resolved.
  destruct (Z.ltb_spec N 0) as [_ | ?]; [| lia].
  change (Z.of_nat (List.length Facade.mockData)) with 10.
  destruct (Z.max_spec (10 + N) 0) as [[Hlt ->] | [Hle ->]].
  - replace (Z.to_nat (10 + N)) with O by lia. reflexivity.
  - reflexivity.
Qed.

Lemma sample_negative_count_witness :
  -8 < 0 /\
  Facade.readHdf5DatasetSample "plan.p01.hdf" "/Results/2D/MaxWSE" (Some (-8))
  = Js.mkAsync [] (Js.Resolved (firstn (Z.to_nat (10 + -8)) Facade.mockData)).
Proof.
  assert (H : -8 < 0) by lia.
  split; [exact H |].
  exact (sample_negative_count "plan.p01.hdf" "/Results/2D/MaxWSE" (-8) H).
Defined.

(* ================================================================= *)
(** ** The front-end: calls, errors and surplus arguments *)

Section FrontEndCalls.
Variable usize_bits : N.
Variable lib : Cli.Analyzer.

Lemma usage_only_single_call (r : Cli.Run unit) :
  usage_only r -> single_call lib r.
Proof.
  intros (Hexit & Hcalls & _). left. split; [assumption |].
  destruct r as [tr [[] | e]]; [reflexivity | discriminate Hexit].
Qed.

Ltac solve_handler r :=
  right; eexists; destruct r eqn:Hr;
  (split; [reflexivity | cbn; rewrite Hr; reflexivity]).

Lemma analyze_file_info_single_call (p : string) :
  single_call lib (Cli.analyze_file_info lib p).
Proof.
  unfold Cli.analyze_file_info, Cli.call.
  solve_handler (Cli.get_file_info lib p).
Qed.

Lemma analyze_file_structure_single_call (p : string) :
  single_call lib (Cli.analyze_file_structure lib p).
Proof.
  unfold Cli.analyze_file_structure, Cli.call.
  solve_handler (Cli.get_file_structure lib p).
Qed.

Lemma list_datasets_single_call (p : string) :
  single_call lib (Cli.list_datasets_cmd lib p).
Proof.
  unfold Cli.list_datasets_cmd, Cli.call.
  solve_handler (Cli.list_datasets lib p).
Qed.

Lemma analyze_hecras_data_single_call (p : string) :
  single_call lib (Cli.analyze_hecras_data lib p).
Proof.
  unfold Cli.analyze_hecras_data, Cli.call.
  solve_handler (Cli.extract_hecras_data lib p).
Qed.

Lemma read_dataset_sample_single_call (p d : string) (n : N) :
  single_call lib (Cli.read_dataset_sample_cmd lib p d n).
Proof.
  unfold Cli.read_dataset_sample_cmd, Cli.call.
  solve_handler (Cli.read_dataset_sample lib p d n).
Qed.

Lemma main_single_call (args : list string) :
  single_call lib (Cli.main usize_bits lib args).
Proof.
  pose proof print_usage_usage_only. pose proof missing_file_usage_only.
  pose proof complaint_usage_only.
  unfold Cli.main.
  repeat lazymatch goal with
         | |- single_call _ (if ?b then _ else _) => destruct b
         end;
    auto using usage_only_single_call, analyze_file_info_single_call,
      analyze_file_structure_single_call, list_datasets_single_call,
      analyze_hecras_data_single_call, read_dataset_sample_single_call.
Qed.

End FrontEndCalls.

(** Whatever its arguments, a run of the front-end calls at most one
    operation of the library. *)
Theorem main_calls_at_most_once
    (usize_bits : N) (lib : Cli.Analyzer) (args : list string) :
  (List.length (Cli.invocations (fst (Cli.main usize_bits lib args))) <= 1)%nat.
Proof.
  destruct (main_single_call usize_bits lib args) as [[-> _] | (c & -> & _)];
    cbn; lia.
Qed.

(** When the operation it calls fails, [main] returns the error of the
    library with one context message in front, which names the file (the
    dataset for [sample]); the chain of the library is kept as it is. *)
Theorem main_keeps_error_chain
    (usize_bits : N) (lib : Cli.Analyzer) (args : list string)
    (c : Cli.Call) (e : Cli.AnyhowError) :
  In c (Cli.invocations (fst (Cli.main usize_bits lib args))) ->
  error_of lib c = Some e ->
  snd (Cli.main usize_bits lib args) = Cli.Err (context_of c :: e).
Proof.
  intros Hin Herr.
  destruct (main_single_call usize_bits lib args) as [[Hnone _] | (c' & Hone & Hres)].
  - rewrite Hnone in Hin. contradiction.
  - rewrite Hone in Hin. destruct Hin as [-> | []].
    now rewrite Hres, Herr.
Qed.

Lemma main_keeps_error_chain_witness :
  In (Cli.GetFileStructure "plan.p01.hdf")
    (Cli.invocations
       (fst (Cli.main 64 Cli.failing ["hdf5_analyzer"; "structure"; "plan.p01.hdf"])))
  /\ error_of Cli.failing (Cli.GetFileStructure "plan.p01.hdf") = Some ["open failed"]
  /\ snd (Cli.main 64 Cli.failing ["hdf5_analyzer"; "structure"; "plan.p01.hdf"])
     = Cli.Err (context_of (Cli.GetFileStructure "plan.p01.hdf") :: ["open failed"]).
Proof.
  assert (H1 : In (Cli.GetFileStructure "plan.p01.hdf")
                 (Cli.invocations
                    (fst (Cli.main 64 Cli.failing
                            ["hdf5_analyzer"; "structure"; "plan.p01.hdf"]))))
    by (cbn; auto).
  assert (H2 : error_of Cli.failing (Cli.GetFileStructure "plan.p01.hdf")
               = Some ["open failed"]) by reflexivity.
  split; [exact H1 |]. split; [exact H2 |].
  exact (main_keeps_error_chain 64 Cli.failing _ _ _ H1 H2).
Defined.

Lemma main_firstn (usize_bits : N) (lib : Cli.Analyzer) (args : list string) :
  Cli.main usize_bits lib args = Cli.main usize_bits lib (firstn 5 args)
  /\ (Cli.arg args 1 <> "sample" ->
      Cli.main usize_bits lib args = Cli.main usize_bits lib (firstn 3 args)).
Proof.
  destruct args as [| a0 [| a1 [| a2 [| a3 [| a4 rest]]]]];
    (split; [reflexivity |]); intros Hcmd; try reflexivity.
  - unfold Cli.main, Cli.arg in *. cbn [nth] in Hcmd.
    cbn [firstn List.length Nat.ltb Nat.leb nth].
    apply String.eqb_neq in Hcmd. now rewrite Hcmd.
  - unfold Cli.main, Cli.arg in *. cbn [nth] in Hcmd.
    cbn [firstn List.length Nat.ltb Nat.leb nth].
    apply String.eqb_neq in Hcmd. now rewrite Hcmd.
Qed.

Lemma collect_firstn (n : nat) (argv : list Process.OsString) (args : list string) :
  Process.collect argv = Some args ->
  Process.collect (firstn n argv) = Some (firstn n args).
Proof.
  revert argv args. induction n as [| n IH]; intros argv args Hcollect.
  - reflexivity.
  - destruct argv as [| [text | raw] rest]; cbn in Hcollect.
    + now injection Hcollect as <-.
    + destruct (Process.collect rest) as [collected |] eqn:Hrest; [| discriminate].
      injection Hcollect as <-. cbn. now rewrite (IH rest collected Hrest).
    + discriminate.
Qed.

(** When all the arguments of the process are valid Unicode, those beyond
    the fifth are ignored, and for every subcommand other than [sample] so
    are those beyond the third. *)
Theorem program_ignores_surplus_arguments
    (usize_bits : N) (lib : Cli.Analyzer)
    (argv : list Process.OsString) (args : list string) :
  Process.collect argv = Some args ->
  Process.start usize_bits lib argv = Process.start usize_bits lib (firstn 5 argv)
  /\ (Cli.arg args 1 <> "sample" ->
      Process.start usize_bits lib argv
      = Process.start usize_bits lib (firstn 3 argv)).
Proof.
  intros Hcollect. unfold Process.start.
  rewrite Hcollect, (collect_firstn 5 _ _ Hcollect), (collect_firstn 3 _ _ Hcollect).
  destruct (main_firstn usize_bits lib args) as [Hfive Hthree].
  split; [now rewrite <- Hfive |].
  intros Hcmd. now rewrite <- (Hthree Hcmd).
Qed.

Lemma program_ignores_surplus_arguments_witness :
  Process.collect
    [Process.Unicode "hdf5_analyzer"; Process.Unicode "info";
     Process.Unicode "plan.p01.hdf"; Process.Unicode "--verbose"]
  = Some ["hdf5_analyzer"; "info"; "plan.p01.hdf"; "--verbose"]
  /\ Cli.arg ["hdf5_analyzer"; "info"; "plan.p01.hdf"; "--verbose"] 1 <> "sample"
  /\ Process.start 64 Cli.succeeding
       [Process.Unicode "hdf5_analyzer"; Process.Unicode "info";
        Process.Unicode "plan.p01.hdf"; Process.Unicode "--verbose"]
     = Process.start 64 Cli.succeeding
         (firstn 3
            [Process.Unicode "hdf5_analyzer"; Process.Unicode "info";
             Process.Unicode "plan.p01.hdf"; Process.Unicode "--verbose"]).
Proof.
  assert (H1 : Process.collect
                 [Process.Unicode "hdf5_analyzer"; Process.Unicode "info";
                  Process.Unicode "plan.p01.hdf"; Process.Unicode "--verbose"]
               = Some ["hdf5_analyzer"; "info"; "plan.p01.hdf"; "--verbose"])
    by reflexivity.
  assert (H2 : Cli.arg ["hdf5_analyzer"; "info"; "plan.p01.hdf"; "--verbose"] 1
               <> "sample") by discriminate.
  split; [exact H1 |]. split; [exact H2 |].
  exact (proj2 (program_ignores_surplus_arguments 64 Cli.succeeding _ _ H1) H2).
Defined.

(* ================================================================= *)
(** ** Parsing the element count *)

Section ParseCount.
Variable usize_bits : N.
Local Abbreviation chars := list_ascii_of_string.
Local Abbreviation usize_MAX := (Cli.usize_MAX usize_bits).

Lemma digit_value_spec (c : ascii) (d : N) :
  Cli.digit_value c = Some d -> is_digit c /\ (d = N_of_ascii c - 48)%N.
Proof.
  unfold Cli.digit_value, is_digit. cbv zeta.
  destruct (N.leb_spec 48 (N_of_ascii c)); [| discriminate].
  destruct (N.leb_spec (N_of_ascii c) 57); [| discriminate].
  intros [= <-]. lia.
Qed.

Lemma parse_digits_sound (s : string) :
  forall acc n,
    Cli.parse_digits usize_bits acc s = Some n ->
    (acc <= usize_MAX)%N ->
    (n <= usize_MAX)%N /\ Forall is_digit (chars s).
Proof.
  induction s as [| c s IH]; intros acc n Hparse Hacc; cbn in Hparse.
  - injection Hparse as <-. split; [assumption | constructor].
  - destruct (Cli.digit_value c) as [d |] eqn:Hd; [| discriminate].
    destruct (digit_value_spec c d Hd) as [Hc _].
    destruct (N.leb_spec (acc * 10 + d) usize_MAX) as [Hle | _]; [| discriminate].
    destruct (IH _ _ Hparse Hle) as [Hn Hs].
    split; [assumption | now constructor].
Qed.

Lemma parse_usize_unfold (c : ascii) (rest : string) :
  Cli.parse_usize usize_bits (String c rest)
  = if Ascii.eqb c "+"
    then match rest with
         | EmptyString => None
         | _ => Cli.parse_digits usize_bits 0 rest
         end
    else if Ascii.eqb c "-" && String.eqb rest ""
         then None
         else Cli.parse_digits usize_bits 0 (String c rest).
Proof.
  destruct c as [[] [] [] [] [] [] [] []]; destruct rest; reflexivity.
Qed.

(** What [parse] accepts is a non-empty string of decimal digits, with at
    most a [+] in front, and the number it yields fits [usize]. *)
Theorem parse_usize_sound (s : string) (n : N) :
  Cli.parse_usize usize_bits s = Some n ->
  (n <= usize_MAX)%N
  /\ exists digits,
       (s = digits \/ s = "+" ++ digits)
       /\ digits <> "" /\ Forall is_digit (chars digits).
Proof.
  destruct s as [| c rest]; [discriminate |].
  rewrite parse_usize_unfold.
  assert (H0 : (0 <= usize_MAX)%N) by apply N.le_0_l.
  destruct (Ascii.eqb_spec c "+") as [-> | Hplus].
  - destruct rest as [| c' rest']; [discriminate |].
    intros Hparse. destruct (parse_digits_sound _ _ _ Hparse H0) as [Hn Hd].
    split; [assumption |]. exists (String c' rest').
    split; [now right |]. split; [discriminate | assumption].
  - destruct (Ascii.eqb c "-" && String.eqb rest ""); [discriminate |].
    intros Hparse. destruct (parse_digits_sound _ _ _ Hparse H0) as [Hn Hd].
    split; [assumption |]. exists (String c rest).
    split; [now left |]. split; [discriminate | assumption].
Qed.

(** *** Printing and parsing back *)

Lemma horner_value (d : Decimal.uint) :
  forall acc,
    horner acc d
    = (DecimalPos.Unsigned.of_lu (Decimal.rev d)
       + acc * 10 ^ DecimalPos.Unsigned.usize d)%N.
Proof.
  induction d; intros acc; cbn [horner DecimalPos.Unsigned.usize];
    [cbn; lia | ..];
    rewrite IHd; unfold Decimal.rev; cbn [Decimal.revapp];
    rewrite (DecimalPos.Unsigned.of_lu_revapp d (_ Decimal.Nil));
    cbn [DecimalPos.Unsigned.of_lu]; rewrite N.pow_succ_r'; unfold Decimal.rev; lia.
Qed.

Lemma horner_ge (d : Decimal.uint) (acc : N) : (acc <= horner acc d)%N.
Proof.
  rewrite horner_value.
  assert (1 <= 10 ^ DecimalPos.Unsigned.usize d)%N.
  { assert (Hten : (10 <> 0)%N) by discriminate.
    pose proof (N.pow_nonzero 10 (DecimalPos.Unsigned.usize d) Hten). lia. }
  nia.
Qed.

Lemma parse_digits_printed (d : Decimal.uint) :
  forall acc,
    (horner acc d <= usize_MAX)%N ->
    Cli.parse_digits usize_bits acc (NilEmpty.string_of_uint d)
    = Some (horner acc d).
Proof.
  induction d; intros acc Hmax;
    cbn [NilEmpty.string_of_uint Cli.parse_digits horner] in *;
    [reflexivity | ..];
    (match goal with
     | |- context [Cli.digit_value ?c] =>
         change (Cli.digit_value c) with (Some (N_of_ascii c - 48)%N)
     end;
     cbv beta iota;
     match goal with
     | |- context [N.leb ?a ?b] =>
         destruct (N.leb_spec a b) as [Hle | Hgt]
     end;
     [apply IHd; exact Hmax
     | exfalso; match type of Hmax with
                | (horner ?a _ <= _)%N => pose proof (horner_ge d a)
                end; cbn in *; lia]).
Qed.

Lemma horner_to_uint (n : N) : horner 0 (N.to_uint n) = n.
Proof.
  rewrite horner_value, N.mul_0_l, N.add_0_r.
  rewrite <- DecimalPos.Unsigned.of_uint_alt.
  exact (DecimalN.Unsigned.of_to n).
Qed.

(** The decimal rendering of a count that fits [usize], as the front-end
    prints it, parses back to that count. *)
Theorem parse_usize_of_printed (n : N) :
  (n <= usize_MAX)%N ->
  Cli.parse_usize usize_bits (Cli.show_N n) = Some n.
Proof.
  intros Hn. unfold Cli.show_N.
  pose proof (horner_to_uint n) as Hval.
  assert (Hparse :
            Cli.parse_digits usize_bits 0 (NilEmpty.string_of_uint (N.to_uint n))
            = Some n).
  { rewrite parse_digits_printed; rewrite Hval; [reflexivity | assumption]. }
  destruct (N.to_uint n) as [| d | d | d | d | d | d | d | d | d | d ] eqn:Hd;
    [| exact Hparse ..].
  exfalso. destruct n as [| p]; [discriminate Hd |].
  exact (DecimalPos.Unsigned.to_uint_nonnil p Hd).
Qed.

End ParseCount.

Lemma parse_usize_sound_witness :
  Cli.parse_usize 64 "+0042" = Some 42%N
  /\ (42 <= Cli.usize_MAX 64)%N
  /\ exists digits,
       ("+0042" = digits \/ "+0042" = "+" ++ digits)
       /\ digits <> "" /\ Forall is_digit (list_ascii_of_string digits).
Proof.
  assert (H : Cli.parse_usize 64 "+0042" = Some 42%N) by reflexivity.
  split; [exact H |]. exact (parse_usize_sound 64 "+0042" 42 H).
Defined.

Lemma parse_usize_of_printed_witness :
  (1000 <= Cli.usize_MAX 16)%N
  /\ Cli.parse_usize 16 (Cli.show_N 1000) = Some 1000%N.
Proof.
  assert (H : (1000 <= Cli.usize_MAX 16)%N) by (vm_compute; discriminate).
  split; [exact H |]. exact (parse_usize_of_printed 16 1000 H).
Defined.

(* ================================================================= *)
(** ** The file search *)

Section FileSearch.
Variable clock : nat -> Z.
Variable backend : string -> Js.Settled HdfExplorerFilesResponse.t.

(** When the backend itself fails, [findHdf5Files] fails with the same
    exception, which is logged twice: by [findHdfFiles] and by
    [findHdf5Files]. *)
Theorem findHdf5Files_backend_exception (folderPath : string) (e : Js.JsError) :
  backend folderPath = Js.Rejected e ->
  Commands.findHdf5Files clock backend folderPath
  = Js.mkAsync
      [ "Error finding HDF files: " ++ Js.show_error e;
        "Error finding HDF5 files: " ++ Js.show_error e ]
      (Js.Rejected e).
Proof.
  intros Hbackend. unfold Commands.findHdf5Files, Commands.findHdfFiles.
  rewrite Hbackend. reflexivity.
Qed.

(** When the backend answers [success = false], [findHdf5Files] throws an
    [Error] instead of returning the answer: its message is the [error] of
    the answer, or ["Error finding HDF files"] when that is absent or
    empty; it is logged once. *)
Theorem findHdf5Files_reported_failure
    (folderPath : string) (response : HdfExplorerFilesResponse.t) :
  backend folderPath = Js.Resolved response ->
  HdfExplorerFilesResponse.success response = false ->
  exists message,
    Commands.findHdf5Files clock backend folderPath
    = Js.mkAsync ["Error finding HDF5 files: Error: " ++ message]
        (Js.Rejected (Js.Error message))
    /\ message <> ""
    /\ (forall reported,
          HdfExplorerFilesResponse.error response = Some reported ->
          reported <> "" -> message = reported)
    /\ (HdfExplorerFilesResponse.error response = None
        \/ HdfExplorerFilesResponse.error response = Some "" ->
        message = "Error finding HDF files").
Proof.
  intros Hbackend Hfail.
  exists (Js.or_literal (HdfExplorerFilesResponse.error response)
            "Error finding HDF files").
  split.
  - unfold Commands.findHdf5Files, Commands.findHdfFiles.
    rewrite Hbackend. cbn. rewrite Hfail. reflexivity.
  - split; [apply or_literal_not_empty; discriminate |]. split.
    + intros reported -> Hne. destruct reported; [congruence | reflexivity].
    + intros [-> | ->]; reflexivity.
Qed.

Lemma convert_files_valid (files : list HdfExplorerFileInfo.t) :
  forall i,
    (forall j, (j < List.length files)%nat -> Js.valid_time (clock (i + j))) ->
    exists infos,
      Commands.convert_files clock i files = Js.Resolved infos
      /\ List.length infos = List.length files
      /\ forall j file,
           nth_error files j = Some file ->
           nth_error infos j
           = Some (Commands.converted file (Js.iso_of_time (clock (i + j)))).
Proof.
  induction files as [| file rest IH]; intros i Hclock.
  - exists []. repeat split. intros [| j] f H; discriminate H.
  - destruct (IH (S i)) as (infos & Hconv & Hlen & Hnth).
    { intros j Hj. replace (S i + j)%nat with (i + S j)%nat by lia.
      apply Hclock. cbn. lia. }
    assert (Hnow : Js.valid_time (clock i)).
    { replace i with (i + 0)%nat by lia. apply Hclock. cbn. lia. }
    cbn [Commands.convert_files]. unfold Js.newDate.
    rewrite (timeClip_valid _ Hnow). cbn [Js.toISOString Js.bind].
    rewrite Hconv. cbn [Js.bind].
    eexists. split; [reflexivity |]. split; [cbn; now rewrite Hlen |].
    intros [| j] f Hf.
    + injection Hf as <-. replace (i + 0)%nat with i by lia. reflexivity.
    + cbn [nth_error] in Hf |- *. rewrite (Hnth j f Hf).
      now replace (i + S j)%nat with (S i + j)%nat by lia.
Qed.

(** When the backend answers [success = true] with files of the declared
    type, [findHdf5Files] returns one object per file of the answer, in
    the same order, and every such object has [undefined] for [name],
    [path], [accessible] and [error] and [NaN] for [size_mb], since the
    properties the conversion reads are not those of the declared type;
    [modified] is the clock at the conversion and the group and dataset
    counts are 5 and 15.  The files themselves and the [count] of the
    answer are not used. *)
Theorem findHdf5Files_success
    (folderPath : string) (response : HdfExplorerFilesResponse.t) :
  backend folderPath = Js.Resolved response ->
  HdfExplorerFilesResponse.success response = true ->
  (forall i, (i < List.length (HdfExplorerFilesResponse.files response))%nat ->
             Js.valid_time (clock i)) ->
  exists infos,
    Commands.findHdf5Files clock backend folderPath
    = Js.mkAsync [] (Js.Resolved infos)
    /\ List.length infos = List.length (HdfExplorerFilesResponse.files response)
    /\ forall i,
         (i < List.length (HdfExplorerFilesResponse.files response))%nat ->
         nth_error infos i
         = Some (JsValue.Object
                   [ ("name", JsValue.Undefined);
                     ("path", JsValue.Undefined);
                     ("size_mb", JsValue.NaN);
                     ("modified", JsValue.Str (Js.iso_of_time (clock i)));
                     ("accessible", JsValue.Undefined);
                     ("groups_count", JsValue.Number 5);
                     ("datasets_count", JsValue.Number 15);
                     ("error", JsValue.Undefined) ]).
Proof.
  intros Hbackend Hok Hclock.
  destruct (convert_files_valid (HdfExplorerFilesResponse.files response) 0 Hclock)
    as (infos & Hconv & Hlen & Hnth).
  exists infos. split; [| split; [assumption |]].
  - unfold Commands.findHdf5Files, Commands.findHdfFiles.
    rewrite Hbackend. cbn. rewrite Hok. cbn. rewrite Hconv. reflexivity.
  - intros i Hi.
    destruct (nth_error (HdfExplorerFilesResponse.files response) i)
      as [file |] eqn:Hfile.
    + now rewrite (Hnth i file Hfile).
    + apply nth_error_None in Hfile. lia.
Qed.

End FileSearch.

Lemma findHdf5Files_backend_exception_witness :
  (fun _ : string => Js.Rejected (A := HdfExplorerFilesResponse.t) (Js.Error "backend down"))
    "/data/project"
  = Js.Rejected (Js.Error "backend down")
  /\ Commands.findHdf5Files (fun _ => 0) (fun _ => Js.Rejected (Js.Error "backend down"))
       "/data/project"
     = Js.mkAsync
         [ "Error finding HDF files: " ++ Js.show_error (Js.Error "backend down");
           "Error finding HDF5 files: " ++ Js.show_error (Js.Error "backend down") ]
         (Js.Rejected (Js.Error "backend down")).
Proof.
  split; [reflexivity |].
  exact (findHdf5Files_backend_exception (fun _ => 0)
           (fun _ => Js.Rejected (Js.Error "backend down"))
           "/data/project" (Js.Error "backend down") eq_refl).
Defined.

Lemma findHdf5Files_reported_failure_witness :
  HdfExplorerFilesResponse.success
    (HdfExplorerFilesResponse.mk false [] 0 (Some "Folder not found")) = false
  /\ exists message,
       Commands.findHdf5Files (fun _ => 0)
         (fun _ => Js.Resolved
                     (HdfExplorerFilesResponse.mk false [] 0 (Some "Folder not found")))
         "/data/project"
       = Js.mkAsync ["Error finding HDF5 files: Error: " ++ message]
           (Js.Rejected (Js.Error message))
       /\ message <> ""
       /\ (forall reported,
             HdfExplorerFilesResponse.error
               (HdfExplorerFilesResponse.mk false [] 0 (Some "Folder not found"))
             = Some reported ->
             reported <> "" -> message = reported)
       /\ (HdfExplorerFilesResponse.error
             (HdfExplorerFilesResponse.mk false [] 0 (Some "Folder not found")) = None
           \/ HdfExplorerFilesResponse.error
                (HdfExplorerFilesResponse.mk false [] 0 (Some "Folder not found"))
              = Some "" ->
           message = "Error finding HDF files").
Proof.
  split; [reflexivity |].
  exact (findHdf5Files_reported_failure (fun _ => 0)
           (fun _ => Js.Resolved
                       (HdfExplorerFilesResponse.mk false [] 0 (Some "Folder not found")))
           "/data/project" _ eq_refl eq_refl).
Defined.

Lemma findHdf5Files_success_witness :
  let response :=
    HdfExplorerFilesResponse.mk true
      [ HdfExplorerFileInfo.mk "/data/plan.p01.hdf" "plan.p01.hdf" 2 true 4 12
          "2025-01-01T00:00:00";
        HdfExplorerFileInfo.mk "/data/geom.g01.hdf" "geom.g01.hdf" 1 false 0 0
          "2025-01-02T00:00:00" ]
      2 None in
  let clock := fun i : nat => 1794787200123 + Z.of_nat i in
  HdfExplorerFilesResponse.success response = true
  /\ (forall i, (i < List.length (HdfExplorerFilesResponse.files response))%nat ->
                Js.valid_time (clock i))
  /\ exists infos,
       Commands.findHdf5Files clock (fun _ => Js.Resolved response) "/data"
       = Js.mkAsync [] (Js.Resolved infos)
       /\ List.length infos = List.length (HdfExplorerFilesResponse.files response)
       /\ forall i,
            (i < List.length (HdfExplorerFilesResponse.files response))%nat ->
            nth_error infos i
            = Some (JsValue.Object
                      [ ("name", JsValue.Undefined);
                        ("path", JsValue.Undefined);
                        ("size_mb", JsValue.NaN);
                        ("modified", JsValue.Str (Js.iso_of_time (clock i)));
                        ("accessible", JsValue.Undefined);
                        ("groups_count", JsValue.Number 5);
                        ("datasets_count", JsValue.Number 15);
                        ("error", JsValue.Undefined) ]).
Proof.
  intros response clock.
  assert (Hclock : forall i,
             (i < List.length (HdfExplorerFilesResponse.files response))%nat ->
             Js.valid_time (clock i)).
  { intros i Hi. unfold Js.valid_time, Js.maxTimeValue, clock. cbn in Hi. lia. }
  split; [reflexivity |]. split; [exact Hclock |].
  exact (findHdf5Files_success clock (fun _ => Js.Resolved response) "/data"
           response eq_refl eq_refl Hclock).
Defined.

(* ================================================================= *)
(** ** The file list of the analysis page *)

Section FileList.
Import JsString.

Lemma startsWith_prefix (s p q : string) :
  startsWith s (p ++ q) = true -> startsWith s p = true.
Proof.
  revert s. induction p as [| x p IH]; intros s H.
  - now destruct s.
  - destruct s as [| y s]; cbn [append startsWith] in *; [discriminate |].
    apply andb_prop in H as [Hxy Hrest].
    rewrite Hxy. cbn. now apply IH.
Qed.

Lemma includes_prefix (s p q : string) :
  includes s (p ++ q) = true -> includes s p = true.
Proof.
  induction s as [| y s IH]; cbn [includes]; intros H.
  - rewrite orb_false_r in *. now apply startsWith_prefix with q.
  - apply orb_prop in H as [H | H].
    + now rewrite (startsWith_prefix _ p q H).
    + rewrite (IH H). apply orb_true_r.
Qed.

Lemma filter_all {A : Type} (f : A -> bool) (l : list A) :
  (forall x, f x = true) -> filter f l = l.
Proof.
  intros Hf. induction l as [| x l IH]; cbn; [reflexivity |].
  now rewrite Hf, IH.
Qed.

Lemma filter_none {A : Type} (f : A -> bool) (l : list A) :
  (forall x, f x = false) -> filter f l = [].
Proof.
  intros Hf. induction l as [| x l IH]; cbn; [reflexivity |].
  now rewrite Hf, IH.
Qed.

(** What [String.prototype.toLowerCase] does is not used: the properties
    hold of any function in its place. *)
Variable toLowerCase : string -> string.

(** The filter type that is not one of [all], [plans], [geometries] and
    [results] hides every file, whatever the search term. *)
Theorem filteredFiles_unknown_type
    (files : list RustFileInfo.t) (searchTerm filterType : string) :
  ~ In filterType ["all"; "plans"; "geometries"; "results"] ->
  Page.filteredFiles toLowerCase files searchTerm filterType = [].
Proof.
  intros Hunknown. apply filter_none. intros file.
  unfold Page.matchesFilter. cbv zeta.
  assert (Hneq : forall known,
             In known ["all"; "plans"; "geometries"; "results"] ->
             String.eqb filterType known = false).
  { intros known Hin. apply String.eqb_neq. intros ->. contradiction. }
  rewrite !Hneq by (cbn; auto). cbn. apply andb_false_r.
Qed.

(** With the empty search term, the filter type [all] keeps every file, in
    order; and under any filter type the empty search term filters by the
    type alone. *)
Theorem filteredFiles_empty_search (files : list RustFileInfo.t) (filterType : string) :
  Page.filteredFiles toLowerCase files "" "all" = files
  /\ Page.filteredFiles toLowerCase files "" filterType
     = filter (Page.matchesFilter toLowerCase filterType) files.
Proof.
  split.
  - now apply filter_all.
  - now apply filter_ext.
Qed.

(** Under the filter type [geometries] a file is kept exactly when its
    name, in lower case, contains [geom]: the second test, on [geometry],
    never decides. *)
Theorem filteredFiles_geometries (files : list RustFileInfo.t) (searchTerm : string) :
  Page.filteredFiles toLowerCase files searchTerm "geometries"
  = filter (fun file =>
              Page.matchesSearch toLowerCase searchTerm file
              && includes (toLowerCase (RustFileInfo.name file)) "geom")
      files.
Proof.
  apply filter_ext. intros file. f_equal.
  unfold Page.matchesFilter. cbn [String.eqb Ascii.eqb Bool.eqb andb orb].
  cbv zeta.
  destruct (includes (toLowerCase (RustFileInfo.name file)) "geom") eqn:Hgeom;
    [reflexivity |].
  destruct (includes (toLowerCase (RustFileInfo.name file)) "geometry") eqn:Hfull;
    [| reflexivity].
  apply (includes_prefix _ "geom" "etry") in Hfull. congruence.
Qed.

End FileList.

Lemma filteredFiles_unknown_type_witness :
  ~ In "Plans" ["all"; "plans"; "geometries"; "results"]
  /\ Page.filteredFiles JsString.toLowerCase [info_record 0 "/data/p01.hdf"] "" "Plans"
     = [].
Proof.
  assert (H : ~ In "Plans" ["all"; "plans"; "geometries"; "results"]).
  { intros Hin. cbn in Hin.
    repeat (destruct Hin as [Hin | Hin]; [discriminate Hin |]). exact Hin. }
  split; [exact H |].
  exact (filteredFiles_unknown_type JsString.toLowerCase
           [info_record 0 "/data/p01.hdf"] "" "Plans" H).
Defined.

(* ================================================================= *)
(** ** The tree printer *)

Section TreePrinter.
Import JsString.

Lemma startsWith_app (p rest : string) : startsWith (p ++ rest) p = true.
Proof.
  induction p as [| x p IH]; [now destruct rest |].
  cbn [append startsWith]. now rewrite Ascii.eqb_refl.
Qed.

Lemma indent_snoc (depth : nat) :
  Report.indent (S depth) = Report.indent depth ++ "  ".
Proof.
  induction depth as [| d IH]; [reflexivity |].
  cbn [Report.indent] in *. rewrite IH at 1. reflexivity.
Qed.

Lemma append_assoc (a b c : string) : (a ++ b) ++ c = a ++ b ++ c.
Proof. induction a as [| x a IH]; cbn; [reflexivity | now rewrite IH]. Qed.

Lemma startsWith_deeper (line : string) (depth : nat) :
  startsWith line (Report.indent (S depth)) = true ->
  startsWith line (Report.indent depth) = true.
Proof. rewrite indent_snoc. apply startsWith_prefix. Qed.

Lemma attribute_lines_indented (node : RustTreeNode.t) (depth : nat) :
  Forall (fun line => startsWith line (Report.indent depth) = true)
    (Report.attribute_lines node depth).
Proof.
  unfold Report.attribute_lines.
  destruct (RustTreeNode.attributes node) as [| kv kvs]; [constructor |].
  destruct (depth <? 3)%nat; [| constructor].
  apply Forall_map, Forall_forall. intros x _. apply startsWith_app.
Qed.

(** Every [println!] of [print_tree_node] for a node at a depth begins with
    the indentation of that depth. *)
Lemma print_tree_node_records_indented (node : RustTreeNode.t) :
  forall depth,
    Forall (fun line => startsWith line (Report.indent depth) = true)
      (Report.print_tree_node node depth).
Proof.
  induction node as [node IH] using tree_induction. intros depth.
  destruct node as [name path node_type children attributes shape dtype].
  cbn [Report.print_tree_node RustTreeNode.children] in *.
  constructor; [unfold Report.node_line; apply startsWith_app |].
  apply Forall_app. split; [apply attribute_lines_indented |].
  apply Forall_flat_map, Forall_forall. intros child Hchild.
  rewrite Forall_forall in IH. specialize (IH child Hchild (S depth)).
  eapply Forall_impl; [| exact IH].
  intros line. apply startsWith_deeper.
Qed.

Lemma attribute_lines_none (node : RustTreeNode.t) (depth : nat) :
  (3 <= depth)%nat \/ RustTreeNode.attributes node = [] ->
  Report.attribute_lines node depth = [].
Proof.
  unfold Report.attribute_lines. intros [Hdeep | ->]; [| reflexivity].
  destruct (RustTreeNode.attributes node); [reflexivity |].
  destruct (Nat.ltb_spec depth 3); [lia | reflexivity].
Qed.

Lemma length_flat_map_ext {A B C : Type} (f : A -> list B) (g : A -> list C)
    (l : list A) :
  Forall (fun x => List.length (f x) = List.length (g x)) l ->
  List.length (flat_map f l) = List.length (flat_map g l).
Proof.
  induction 1 as [| x l Hx _ IH]; cbn; [reflexivity |].
  now rewrite !length_app, Hx, IH.
Qed.

(** From depth 3 on there is one [println!] per node. *)
Lemma print_tree_node_records_deep (node : RustTreeNode.t) :
  forall depth,
    (3 <= depth)%nat ->
    List.length (Report.print_tree_node node depth)
    = List.length (Tree.nodes node).
Proof.
  induction node as [node IH] using tree_induction. intros depth Hdeep.
  destruct node as [name path node_type children attributes shape dtype].
  cbn [Report.print_tree_node Tree.nodes RustTreeNode.children List.length] in *.
  rewrite attribute_lines_none by now left. cbn [app]. f_equal.
  apply length_flat_map_ext.
  eapply Forall_impl; [| exact IH].
  intros child Hc. apply Hc. lia.
Qed.

(** *** From the records to the lines of the output *)

Local Abbreviation chars := list_ascii_of_string.

Lemma newline_free_app (a b : string) :
  newline_free (a ++ b) <-> newline_free a /\ newline_free b.
Proof.
  unfold newline_free. rewrite chars_app. split.
  - intros H. split; intros Hin; apply H, in_or_app; auto.
  - intros [Ha Hb] Hin. apply in_app_or in Hin as [Hin | Hin]; auto.
Qed.

Ltac closed_newline_free :=
  let H := fresh in
  intros H; cbn in H;
  repeat (destruct H as [H | H]; [discriminate H |]); exact H.

Lemma newline_free_indent (depth : nat) : newline_free (Report.indent depth).
Proof.
  induction depth as [| d IH]; [intros [] |].
  cbn [Report.indent]. apply newline_free_app. split; [closed_newline_free | exact IH].
Qed.

Lemma newline_free_icon (node_type : string) : newline_free (Report.icon node_type).
Proof.
  unfold Report.icon.
  destruct (String.eqb node_type "group"); [closed_newline_free |].
  destruct (String.eqb node_type "dataset"); closed_newline_free.
Qed.

Lemma newline_free_uint (d : Decimal.uint) :
  newline_free (NilEmpty.string_of_uint d).
Proof.
  induction d; cbn [NilEmpty.string_of_uint];
    [intros [] | ..];
    (intros [H | H]; [discriminate H | exact (IHd H)]).
Qed.

Lemma newline_free_show_Z (z : Z) : newline_free (Report.show_Z z).
Proof.
  unfold Report.show_Z, NilZero.string_of_int, NilZero.string_of_uint.
  destruct (Z.to_int z) as [d | d].
  - destruct d; try apply newline_free_uint. closed_newline_free.
  - intros [H | H]; [discriminate H |]. revert H.
    destruct d; try apply newline_free_uint. closed_newline_free.
Qed.

Lemma newline_free_concat (sep : string) (l : list string) :
  newline_free sep -> Forall newline_free l -> newline_free (String.concat sep l).
Proof.
  intros Hsep Hl. induction Hl as [| x l Hx Hl IH]; [intros [] |].
  cbn [String.concat]. destruct l as [| y l]; [exact Hx |].
  apply newline_free_app. split; [exact Hx |].
  apply newline_free_app. split; [exact Hsep | exact IH].
Qed.

Lemma newline_free_debug_shape (shape : list Z) :
  newline_free (Report.debug_shape shape).
Proof.
  unfold Report.debug_shape.
  apply newline_free_app. split; [closed_newline_free |].
  apply newline_free_app. split; [| closed_newline_free].
  apply newline_free_concat; [closed_newline_free |].
  apply Forall_map, Forall_forall. intros z _. apply newline_free_show_Z.
Qed.

Lemma newline_free_node_line (node : RustTreeNode.t) (depth : nat) :
  one_line_node node -> newline_free (Report.node_line node depth).
Proof.
  intros (Hname & Hdtype & _). unfold Report.node_line.
  repeat (apply newline_free_app; split);
    try apply newline_free_indent; try apply newline_free_icon;
    try closed_newline_free; try assumption.
  destruct (String.eqb (RustTreeNode.node_type node) "dataset"); [| intros []].
  apply newline_free_app. split.
  - destruct (RustTreeNode.shape node); [| intros []].
    apply newline_free_app. split; [closed_newline_free |].
    apply newline_free_debug_shape.
  - destruct (RustTreeNode.dtype node) as [dtype |]; [| intros []].
    repeat (apply newline_free_app; split); try closed_newline_free.
    now apply Hdtype.
Qed.

Lemma newline_free_attribute_lines (node : RustTreeNode.t) (depth : nat) :
  one_line_node node -> Forall newline_free (Report.attribute_lines node depth).
Proof.
  intros (_ & _ & Hattrs). unfold Report.attribute_lines.
  destruct (RustTreeNode.attributes node) as [| kv kvs] eqn:Heq; [constructor |].
  destruct (depth <? 3)%nat; [| constructor].
  apply Forall_map. eapply Forall_impl; [| exact Hattrs].
  intros [k v] [Hk Hv]. cbn [fst snd] in *.
  repeat (apply newline_free_app; split);
    try apply newline_free_indent; try closed_newline_free; assumption.
Qed.

Lemma print_tree_node_newline_free (node : RustTreeNode.t) :
  forall depth,
    Forall one_line_node (Tree.nodes node) ->
    Forall newline_free (Report.print_tree_node node depth).
Proof.
  induction node as [node IH] using tree_induction. intros depth Hnodes.
  destruct node as [name path node_type children attributes shape dtype].
  cbn [Report.print_tree_node Tree.nodes RustTreeNode.children] in *.
  apply Forall_cons_iff in Hnodes as [Hnode Hbelow].
  constructor; [now apply newline_free_node_line |].
  apply Forall_app. split; [now apply newline_free_attribute_lines |].
  apply Forall_flat_map. rewrite Forall_flat_map in Hbelow.
  rewrite Forall_forall in *. intros child Hchild.
  apply (IH child Hchild). now apply Hbelow.
Qed.

Lemma split_record (record rest : string) :
  newline_free record ->
  Js.split newline (record ++ String newline rest)
  = record :: Js.split newline rest.
Proof.
  unfold newline_free.
  induction record as [| x record IH]; intros Hfree; cbn [append Js.split].
  - now rewrite Ascii.eqb_refl.
  - destruct (Ascii.eqb_spec x newline) as [-> | _].
    + exfalso. apply Hfree. now left.
    + rewrite IH by (intros Hin; apply Hfree; now right). reflexivity.
Qed.

(** The lines of what a sequence of [println!] writes are the texts
    written, as long as none of them contains a newline. *)
Lemma lines_printed (records : list string) :
  Forall newline_free records -> lines (printed records) = records.
Proof.
  unfold lines. induction 1 as [| record rest Hfree _ IH]; [reflexivity |].
  cbn [printed]. rewrite split_record by assumption.
  pose proof (split_not_nil newline (printed rest)) as Hne.
  destruct (Js.split newline (printed rest)) as [| seg segs] eqn:Hsplit;
    [contradiction |].
  cbn [removelast] in *. now rewrite IH.
Qed.

(** For a tree whose names, type descriptions and attributes contain no
    newline, every line that [print_tree_node] writes for a node at a
    depth, the lines of its attributes and of its descendants included,
    begins with the indentation of that depth, two spaces per level. *)
Theorem print_tree_node_indented (node : RustTreeNode.t) (depth : nat) :
  Forall one_line_node (Tree.nodes node) ->
  Forall (fun line => startsWith line (Report.indent depth) = true)
    (lines (printed (Report.print_tree_node node depth))).
Proof.
  intros Hnodes.
  rewrite lines_printed by now apply print_tree_node_newline_free.
  apply print_tree_node_records_indented.
Qed.

(** For a tree whose names, type descriptions and attributes contain no
    newline, [print_tree_node] called at depth 3 or deeper prints no
    attribute: its output has exactly one line per node of the tree. *)
Theorem print_tree_node_deep (node : RustTreeNode.t) (depth : nat) :
  (3 <= depth)%nat ->
  Forall one_line_node (Tree.nodes node) ->
  List.length (lines (printed (Report.print_tree_node node depth)))
  = List.length (Tree.nodes node).
Proof.
  intros Hdeep Hnodes.
  rewrite lines_printed by now apply print_tree_node_newline_free.
  now apply print_tree_node_records_deep.
Qed.

End TreePrinter.

Lemma one_line_cells :
  Forall one_line_node
    (Tree.nodes
       (RustTreeNode.mk "Cells" "/Geometry/2D/Area/Cells" "dataset" []
          [("Units", "ft")] (Some [120; 2]) (Some "float64"))).
Proof.
  constructor; [| constructor].
  assert (Hfree : forall s, (forall H : In newline (list_ascii_of_string s), False)
                            -> newline_free s) by (intros s H; exact H).
  split; [| split].
  - apply Hfree. cbn. intros H.
    repeat (destruct H as [H | H]; [discriminate H |]). exact H.
  - intros dtype [= <-]. apply Hfree. cbn. intros H.
    repeat (destruct H as [H | H]; [discriminate H |]). exact H.
  - constructor; [| constructor]. split; apply Hfree; cbn; intros H;
      repeat (destruct H as [H | H]; [discriminate H |]); exact H.
Qed.

Lemma print_tree_node_indented_witness :
  Forall one_line_node
    (Tree.nodes
       (RustTreeNode.mk "Cells" "/Geometry/2D/Area/Cells" "dataset" []
          [("Units", "ft")] (Some [120; 2]) (Some "float64")))
  /\ Forall (fun line => JsString.startsWith line (Report.indent 2) = true)
       (lines
          (printed
             (Report.print_tree_node
                (RustTreeNode.mk "Cells" "/Geometry/2D/Area/Cells" "dataset" []
                   [("Units", "ft")] (Some [120; 2]) (Some "float64")) 2))).
Proof.
  split; [exact one_line_cells |].
  exact (print_tree_node_indented _ 2 one_line_cells).
Defined.

Lemma print_tree_node_deep_witness :
  (3 <= 3)%nat
  /\ Forall one_line_node
       (Tree.nodes
          (RustTreeNode.mk "Cells" "/Geometry/2D/Area/Cells" "dataset" []
             [("Units", "ft")] (Some [120; 2]) (Some "float64")))
  /\ List.length
       (lines
          (printed
             (Report.print_tree_node
                (RustTreeNode.mk "Cells" "/Geometry/2D/Area/Cells" "dataset" []
                   [("Units", "ft")] (Some [120; 2]) (Some "float64")) 3)))
     = List.length
         (Tree.nodes
            (RustTreeNode.mk "Cells" "/Geometry/2D/Area/Cells" "dataset" []
               [("Units", "ft")] (Some [120; 2]) (Some "float64"))).
Proof.
  assert (H : (3 <= 3)%nat) by lia.
  split; [exact H |]. split; [exact one_line_cells |].
  exact (print_tree_node_deep _ 3 H one_line_cells).
Defined.

